(** * OpenWRT_AutoConfigure: chunker, vector-index synchronisation, retrieval

    A shallow embedding of [uci_splitter_Add_Coment.py] (class [UCISplitter])
    and of the synchronisation, persistence and retrieval functions of
    [config.py], together with the properties of the design document that
    were checked against them.

    Conventions of the embedding.
    - Python [str] is [string]; text is taken to be ASCII, so that [len],
      [encode()] and the byte length agree.
    - Python [int] is [Z]; list lengths are [nat] and are injected with
      [Z.of_nat] where the source mixes them with integers.
    - A raised exception is the constructor [Raise] of [outcome]; mutable
      state that survives the exception travels next to the outcome.
    - [dict] is [gmap]; a directory is an association list from file name to
      content whose order is the order in which the directory is enumerated. *)

From Stdlib Require Import ZArith Ascii String List DecimalString DecimalPos DecimalZ.
From stdpp Require Import gmap strings list fin_maps.

Open Scope Z_scope.

(* ===================================================================== *)
(** * Python primitives used by the two source files *)
(* ===================================================================== *)

Module Py.

(** The exceptions the modelled code raises or catches.  All of them derive
    from Python's [Exception], so [except Exception] catches each of them;
    signals outside that class ([KeyboardInterrupt], [SystemExit]) are not
    modelled. *)
Inductive exn : Set :=
  | AttributeError
  | IndexError
  | KeyError
  | TypeError
  | ValueError
  | FileNotFoundError
  | OSError
  | TimeoutError
  | APIError.

Definition is_FileNotFoundError (e : exn) : bool :=
  match e with FileNotFoundError => true | _ => false end.

(** The class [Exception] itself. *)
Definition is_Exception (e : exn) : bool := true.

Inductive outcome (A : Type) : Type :=
  | Ok (a : A)
  | Raise (e : exn).
Arguments Ok {A} a.
Arguments Raise {A} e.

(** A computation over a mutable store [S]: the store is returned in both
    cases, because what was mutated before a [raise] stays mutated. *)
Definition M (S A : Type) : Type := S -> outcome A * S.

Definition ret {S A} (a : A) : M S A := fun s => (Ok a, s).

Definition raise {S A} (e : exn) : M S A := fun s => (Raise e, s).

Definition bind {S A B} (m : M S A) (k : A -> M S B) : M S B :=
  fun s =>
    match m s with
    | (Ok a, s') => k a s'
    | (Raise e, s') => (Raise e, s')
    end.

Definition get {S} : M S S := fun s => (Ok s, s).

Definition put {S} (s : S) : M S unit := fun _ => (Ok tt, s).

(** [for x in l: body(acc, x)] with the accumulator threaded through; an
    exception leaves the loop. *)
Fixpoint for_each {S A X} (body : A -> X -> M S A) (l : list X) (acc : A) : M S A :=
  match l with
  | [] => ret acc
  | x :: l' => bind (body acc x) (for_each body l')
  end.

(** [try: m  except E: handler], where [catches] tells the instances of
    [E]. *)
Definition try_except {S A} (catches : exn -> bool) (m : M S A) (handler : exn -> M S A)
  : M S A :=
  fun s =>
    match m s with
    | (Ok a, s') => (Ok a, s')
    | (Raise e, s') => if catches e then handler e s' else (Raise e, s')
    end.

(** The same [try] for code that touches no store. *)
Definition catch {A} (catches : exn -> bool) (o : outcome A) (handler : exn -> outcome A)
  : outcome A :=
  match o with
  | Ok a => Ok a
  | Raise e => if catches e then handler e else Raise e
  end.

(** ** Characters and strings *)

(** The ASCII characters matched by [\s] in a [str] pattern, which are also
    the ones removed by [str.strip()]: TAB, LF, VT, FF, CR, FS, GS, RS, US
    and the space. *)
Definition is_space (c : ascii) : bool :=
  let n := nat_of_ascii c in
  ((9 <=? n) && (n <=? 13) || (28 <=? n) && (n <=? 32))%nat.

Fixpoint lstrip (s : string) : string :=
  match s with
  | String c s' => if is_space c then lstrip s' else s
  | EmptyString => EmptyString
  end.

(** [rstrip] keeps a character when it is not a space or when something
    that is kept follows it. *)
Fixpoint rstrip (s : string) : string :=
  match s with
  | String c s' =>
      match rstrip s' with
      | EmptyString => if is_space c then EmptyString else String c EmptyString
      | r => String c r
      end
  | EmptyString => EmptyString
  end.

(** [s.strip()] *)
Definition strip (s : string) : string := rstrip (lstrip s).

(** [len(s)] *)
Definition len (s : string) : Z := Z.of_nat (String.length s).

(** [''.join(l)] *)
Definition join_empty (l : list string) : string :=
  fold_right String.append EmptyString l.

(** [sep.join(l)] *)
Fixpoint join (sep : string) (l : list string) : string :=
  match l with
  | [] => EmptyString
  | [x] => x
  | x :: l' => x +:+ sep +:+ join sep l'
  end.

(** [s.replace('.', '_')] *)
Fixpoint replace_dot (s : string) : string :=
  match s with
  | String c s' =>
      String (if Ascii.eqb c "."%char then "_"%char else c) (replace_dot s')
  | EmptyString => EmptyString
  end.

(** [s.startswith(p)] *)
Definition startswith (p s : string) : bool := String.prefix p s.

(** [s.endswith(p)] *)
Definition endswith (p s : string) : bool :=
  let n := String.length s in
  let k := String.length p in
  (k <=? n)%nat && String.eqb (String.substring (n - k) k s) p.

(** [s[:n]] for a non-negative [n] *)
Definition take_str (n : nat) (s : string) : string := String.substring 0 n s.

(** [str(n)] for an [int] *)
Definition str_of_int (z : Z) : string := NilZero.string_of_int (Z.to_int z).

(** [int(s)] for a [str]: [None] stands for [ValueError].  The canonical
    decimal forms (an optional minus sign followed by digits) are accepted;
    Python also accepts surrounding blanks, a plus sign and underscores,
    none of which [str] ever produces. *)
Definition int_of_str (s : string) : option Z :=
  Z.of_int <$> NilZero.int_of_string s.

(** ** Slices *)

(** [l[start:]] with Python's treatment of a negative start. *)
Definition slice_from {A} (start : Z) (l : list A) : list A :=
  if start <? 0
  then drop (Z.to_nat (Z.max 0 (Z.of_nat (length l) + start))) l
  else drop (Z.to_nat start) l.

(** [l[:stop]] for a non-negative stop. *)
Definition slice_to {A} (stop : Z) (l : list A) : list A :=
  take (Z.to_nat stop) l.

(** ** Reading a text file line by line *)

(** [for line in f]: every line keeps its terminating newline; a last line
    without one is yielded as it is.  The text is the one the file object
    delivers, with line ends already translated to a single newline. *)
Fixpoint readlines (text : string) : list string :=
  match text with
  | EmptyString => []
  | String c rest =>
      if Ascii.eqb c "010"%char
      then String c EmptyString :: readlines rest
      else match readlines rest with
           | [] => [String c EmptyString]
           | l :: ls => String c l :: ls
           end
  end.

(** ** Splitting and searching *)

(** [s.split('\n')]: the pieces between the newlines, at least one. *)
Fixpoint split_lines (s : string) : list string :=
  match s with
  | EmptyString => [EmptyString]
  | String c rest =>
      if Ascii.eqb c "010"%char
      then EmptyString :: split_lines rest
      else match split_lines rest with
           | l :: ls => String c l :: ls
           | [] => [String c EmptyString]
           end
  end.

(** [needle in hay] *)
Fixpoint contains (needle hay : string) : bool :=
  String.prefix needle hay
  || match hay with
     | String _ rest => contains needle rest
     | EmptyString => false
     end.

(** [s.split(c)[0]] for a one-character separator: what precedes the first
    occurrence, the whole string when there is none. *)
Fixpoint before_char (c : ascii) (s : string) : string :=
  match s with
  | String x rest => if Ascii.eqb x c then EmptyString else String x (before_char c rest)
  | EmptyString => EmptyString
  end.

End Py.

Notation "'let*' x ':=' m 'in' k" := (Py.bind m (fun x => k))
  (at level 10, x pattern, m at level 100, k at level 200).

(* ===================================================================== *)
(** * [hashlib.md5]: the digest the chunker compares *)
(* ===================================================================== *)

Module Md5.

Definition mask32 : Z := 0xFFFFFFFF.
Definition add32 (a b : Z) : Z := Z.land (a + b) mask32.
Definition not32 (a : Z) : Z := Z.lxor a mask32.
Definition rotl32 (x : Z) (c : Z) : Z :=
  Z.land (Z.lor (Z.shiftl x c) (Z.shiftr x (32 - c))) mask32.

Definition K : list Z :=
  [ 0xd76aa478; 0xe8c7b756; 0x242070db; 0xc1bdceee;
    0xf57c0faf; 0x4787c62a; 0xa8304613; 0xfd469501;
    0x698098d8; 0x8b44f7af; 0xffff5bb1; 0x895cd7be;
    0x6b901122; 0xfd987193; 0xa679438e; 0x49b40821;
    0xf61e2562; 0xc040b340; 0x265e5a51; 0xe9b6c7aa;
    0xd62f105d; 0x02441453; 0xd8a1e681; 0xe7d3fbc8;
    0x21e1cde6; 0xc33707d6; 0xf4d50d87; 0x455a14ed;
    0xa9e3e905; 0xfcefa3f8; 0x676f02d9; 0x8d2a4c8a;
    0xfffa3942; 0x8771f681; 0x6d9d6122; 0xfde5380c;
    0xa4beea44; 0x4bdecfa9; 0xf6bb4b60; 0xbebfbc70;
    0x289b7ec6; 0xeaa127fa; 0xd4ef3085; 0x04881d05;
    0xd9d4d039; 0xe6db99e5; 0x1fa27cf8; 0xc4ac5665;
    0xf4292244; 0x432aff97; 0xab9423a7; 0xfc93a039;
    0x655b59c3; 0x8f0ccc92; 0xffeff47d; 0x85845dd1;
    0x6fa87e4f; 0xfe2ce6e0; 0xa3014314; 0x4e0811a1;
    0xf7537e82; 0xbd3af235; 0x2ad7d2bb; 0xeb86d391 ].

Definition S : list Z :=
  [ 7; 12; 17; 22; 7; 12; 17; 22; 7; 12; 17; 22; 7; 12; 17; 22;
    5; 9; 14; 20; 5; 9; 14; 20; 5; 9; 14; 20; 5; 9; 14; 20;
    4; 11; 16; 23; 4; 11; 16; 23; 4; 11; 16; 23; 4; 11; 16; 23;
    6; 10; 15; 21; 6; 10; 15; 21; 6; 10; 15; 21; 6; 10; 15; 21 ].

Fixpoint bytes_of_string (s : string) : list Z :=
  match s with
  | EmptyString => []
  | String c s' => Z.of_nat (nat_of_ascii c) :: bytes_of_string s'
  end.

(** Little-endian bytes of [x], [n] of them. *)
Fixpoint le_bytes (n : nat) (x : Z) : list Z :=
  match n with
  | O => []
  | Datatypes.S n' => Z.land x 0xFF :: le_bytes n' (Z.shiftr x 8)
  end.

Fixpoint le_word (bs : list Z) : Z :=
  match bs with
  | [] => 0
  | b :: bs' => Z.lor b (Z.shiftl (le_word bs') 8)
  end.

(** The message followed by 0x80, zeros up to 56 modulo 64, and the bit
    length on eight bytes. *)
Definition pad (msg : list Z) : list Z :=
  let n := Z.of_nat (length msg) in
  let zeros := Z.to_nat ((55 - n) mod 64) in
  msg ++ [0x80] ++ repeat 0 zeros ++ le_bytes 8 (Z.land (8 * n) 0xFFFFFFFFFFFFFFFF).

Fixpoint words (n : nat) (bs : list Z) : list Z :=
  match n with
  | O => []
  | Datatypes.S n' => le_word (take 4 bs) :: words n' (drop 4 bs)
  end.

Definition round (M : list Z) (i : nat) (st : Z * Z * Z * Z) : Z * Z * Z * Z :=
  let '(a, b, c, d) := st in
  let iz := Z.of_nat i in
  let '(f, g) :=
    if (i <? 16)%nat then (Z.lor (Z.land b c) (Z.land (not32 b) d), iz)
    else if (i <? 32)%nat then (Z.lor (Z.land d b) (Z.land (not32 d) c), (5 * iz + 1) mod 16)
    else if (i <? 48)%nat then (Z.lxor (Z.lxor b c) d, (3 * iz + 5) mod 16)
    else (Z.lxor c (Z.lor b (not32 d)), (7 * iz) mod 16) in
  let f' := add32 (add32 (add32 f a) (nth i K 0)) (nth (Z.to_nat g) M 0) in
  (d, add32 b (rotl32 f' (nth i S 0)), b, c).

Definition block (st : Z * Z * Z * Z) (bs : list Z) : Z * Z * Z * Z :=
  let M := words 16 bs in
  let '(a, b, c, d) := fold_left (fun s i => round M i s) (seq 0 64) st in
  let '(a0, b0, c0, d0) := st in
  (add32 a0 a, add32 b0 b, add32 c0 c, add32 d0 d).

Fixpoint blocks (n : nat) (st : Z * Z * Z * Z) (bs : list Z) : Z * Z * Z * Z :=
  match n with
  | O => st
  | Datatypes.S n' => blocks n' (block st (take 64 bs)) (drop 64 bs)
  end.

Definition hex_digit (n : Z) : ascii :=
  nth (Z.to_nat n) (list_ascii_of_string "0123456789abcdef") "0"%char.

Fixpoint hex_of_bytes (bs : list Z) : string :=
  match bs with
  | [] => EmptyString
  | b :: bs' =>
      String (hex_digit (Z.shiftr b 4)) (String (hex_digit (Z.land b 0xF)) (hex_of_bytes bs'))
  end.

(** [hashlib.md5(s.encode()).hexdigest()] *)
Definition hexdigest (s : string) : string :=
  let bs := pad (bytes_of_string s) in
  let '(a, b, c, d) :=
    blocks (length bs / 64) (0x67452301, 0xefcdab89, 0x98badcfe, 0x10325476) bs in
  hex_of_bytes (le_bytes 4 a ++ le_bytes 4 b ++ le_bytes 4 c ++ le_bytes 4 d).

End Md5.

(* ===================================================================== *)
(** * The chunk store: a directory of text files *)
(* ===================================================================== *)

Module Dir.

(** File name and content, in the order in which the directory lists them. *)
Definition t : Type := list (string * string).

Definition names (d : t) : list string := d.*1.

Fixpoint read (name : string) (d : t) : option string :=
  match d with
  | [] => None
  | (n, c) :: d' => if String.eqb n name then Some c else read name d'
  end.

Definition exists_ (name : string) (d : t) : bool :=
  match read name d with Some _ => true | None => false end.

(** [open(name, 'w').write(content)]: an existing file is overwritten where
    it is, a new one is listed last. *)
Fixpoint write (name content : string) (d : t) : t :=
  match d with
  | [] => [(name, content)]
  | (n, c) :: d' =>
      if String.eqb n name then (n, content) :: d' else (n, c) :: write name content d'
  end.

(** [Path.unlink()] of a file that exists. *)
Definition unlink (name : string) (d : t) : t :=
  filter (fun e => negb (String.eqb e.1 name)) d.

(** A file name matches the pattern [pre*suf] (no other wildcard; the
    literal parts are taken not to contain glob metacharacters). *)
Definition matches (pre suf name : string) : bool :=
  Py.startswith pre name && Py.endswith suf name
  && (String.length pre + String.length suf <=? String.length name)%nat.

(** [dir.glob(pre + "*" + suf)] *)
Definition glob (pre suf : string) (d : t) : list string :=
  filter (fun n => matches pre suf n) (names d).

End Dir.

(* ===================================================================== *)
(** * [uci_splitter_Add_Coment.py]: class [UCISplitter] *)
(* ===================================================================== *)

Module UCISplitter.

(** ** The two compiled patterns *)

(** The longest prefix of non-blank characters, and what follows it. *)
Fixpoint span_nonspace (s : string) : string * string :=
  match s with
  | String c s' =>
      if Py.is_space c then (EmptyString, s)
      else let '(g, r) := span_nonspace s' in (String c g, r)
  | EmptyString => (EmptyString, EmptyString)
  end.

Fixpoint drop_str (n : nat) (s : string) : string :=
  match n, s with
  | O, _ => s
  | S n', String _ s' => drop_str n' s'
  | S _, EmptyString => EmptyString
  end.

(** What [\s+] leaves: [None] when the text does not start with a blank,
    otherwise the text after the whole run of blanks (the run has to be
    followed by a non-blank in both patterns, so no shorter run can match). *)
Definition after_spaces (s : string) : option string :=
  match s with
  | String c _ => if Py.is_space c then Some (Py.lstrip s) else None
  | EmptyString => None
  end.

(** [True] when a quote occurs in [s] at an index of at least one: the
    condition for [(\S+)'] to match inside a run of non-blanks. *)
Definition quote_after_first (s : string) : bool :=
  match s with
  | String _ s' =>
      existsb (fun c => Ascii.eqb c "'"%char) (list_ascii_of_string s')
  | EmptyString => false
  end.

(** [self.package_pattern.match(line)], pattern [^package\s+(\S+)]: the
    result is [group(1)]. *)
Definition package_pattern (line : string) : option string :=
  if Py.startswith "package" line then
    match after_spaces (drop_str 7 line) with
    | Some r =>
        match span_nonspace r with
        | (EmptyString, _) => None
        | (g, _) => Some g
        end
    | None => None
    end
  else None.

(** [self.config_header_pattern.match(line)], pattern
    [^config\s+(\S+)\s+'(\S+)']: only whether it matches is used. *)
Definition config_header_pattern (line : string) : bool :=
  if Py.startswith "config" line then
    match after_spaces (drop_str 6 line) with
    | Some r =>
        match span_nonspace r with
        | (EmptyString, _) => false
        | (_, r2) =>
            match after_spaces r2 with
            | Some (String q r4) =>
                Ascii.eqb q "'"%char && quote_after_first (span_nonspace r4).1
            | _ => false
            end
        end
    | None => false
    end
  else false.

(** ** The object and what it writes *)

(** The fields of a [UCISplitter] that the chunker reads or assigns.
    ([annotation_dict] only collects the generated annotations.) *)
Record t : Type := mk {
  max_chunk_size : Z;
  overlap : Z;
  last_buffer_hash : option string
}.

(** [UCISplitter(max_chunk_size, overlap)] *)
Definition __init__ (max_chunk_size overlap : Z) : t :=
  mk max_chunk_size overlap None.

(** The tuple returned by [_flush_buffer] for a chunk it wrote. *)
Record task : Type := mk_task {
  filename : string;
  buffer_content : string;
  task_package : string;
  chunk_num : Z
}.

(** The store of the chunker: the object, and the output directory. *)
Definition store : Type := t * Dir.t.

Definition chunk_text (current_package buffer_content : string) : string :=
  "# Parent Package: " +:+ current_package +:+ String "010"%char (String "010"%char buffer_content).

(** [_flush_buffer(self, buffer, current_package, output_dir)].
    [current_package] is [None] until a package line was read, and
    [None.replace] raises [AttributeError] after the digest was stored. *)
Definition _flush_buffer (buffer : list string) (current_package : option string)
  : Py.M store (option task) :=
  fun '(self, output_dir) =>
    match buffer with
    | [] => (Py.Ok None, (self, output_dir))
    | _ =>
        let buffer_content := Py.join_empty buffer in
        let current_hash := Md5.hexdigest buffer_content in
        if decide (Some current_hash = last_buffer_hash self)
        then (Py.Ok None, (self, output_dir))
        else
          let self := mk (max_chunk_size self) (overlap self) (Some current_hash) in
          match current_package with
          | None => (Py.Raise Py.AttributeError, (self, output_dir))
          | Some pkg =>
              let safe_pkg := Py.replace_dot pkg in
              let chunk_num :=
                Z.of_nat (length (Dir.glob (safe_pkg +:+ "_") ".txt" output_dir)) + 1 in
              let filename := safe_pkg +:+ "_part" +:+ Py.str_of_int chunk_num +:+ ".txt" in
              (Py.Ok (Some (mk_task filename buffer_content pkg chunk_num)),
               (self, Dir.write filename (chunk_text pkg buffer_content) output_dir))
          end
    end.

(** ** [split_config] *)

(** The local variables of the loop of [split_config]. *)
Record loop : Type := mk_loop {
  current_package : option string;
  buffer : list string;
  buffer_size : Z;
  tasks : list task
}.

(** [tasks.append(task)] under [if task:] *)
Definition append_task (ts : list task) (r : option task) : list task :=
  match r with Some t => ts ++ [t] | None => ts end.

(** Index of the first element of [l] that satisfies [p]. *)
Fixpoint find_index {A} (p : A -> bool) (l : list A) : option nat :=
  match l with
  | [] => None
  | x :: l' => if p x then Some O else S <$> find_index p l'
  end.

(** The search [for i, bline in enumerate(reversed(buffer))] for
    [last_config_pos], which stays [-1] when no line matches. *)
Definition last_config_pos (buffer : list string) : Z :=
  match find_index config_header_pattern (reverse buffer) with
  | Some i => Z.of_nat (length buffer) - Z.of_nat i - 1
  | None => -1
  end.

Definition sum_len (l : list string) : Z :=
  fold_right (fun s acc => Py.len s + acc) 0 l.

(** The part of the loop body under [if pkg_match:]. *)
Definition on_package (st : loop) (line : string) : Py.M store loop :=
  match package_pattern line with
  | Some g =>
      let* st' :=
        match buffer st with
        | [] => Py.ret st
        | _ =>
            let* r := _flush_buffer (buffer st) (current_package st) in
            Py.ret (mk_loop (current_package st) [] 0 (append_task (tasks st) r))
        end in
      Py.ret (mk_loop (Some g) (buffer st') (buffer_size st') (tasks st'))
  | None => Py.ret st
  end.

(** The part of the loop body under
    [if buffer_size + line_length > self.max_chunk_size:]. *)
Definition on_overflow (st : loop) : Py.M store loop :=
  let* self := fun s => (Py.Ok s.1, s) in
  let pos := last_config_pos (buffer st) in
  if decide (pos <> -1) then
    let chunk_part1 := Py.slice_to (pos + 1) (buffer st) in
    let chunk_part2 := Py.slice_from (pos + 1) (buffer st) in
    let* r := _flush_buffer chunk_part1 (current_package st) in
    let buffer' := Py.slice_from (- overlap self) chunk_part1 ++ chunk_part2 in
    Py.ret (mk_loop (current_package st) buffer' (sum_len buffer') (append_task (tasks st) r))
  else
    let* r := _flush_buffer (buffer st) (current_package st) in
    Py.ret (mk_loop (current_package st) [] 0 (append_task (tasks st) r)).

(** One iteration of [for line in f]. *)
Definition split_line (st : loop) (line : string) : Py.M store loop :=
  let* st1 := on_package st line in
  let line_length := Py.len line in
  let* self := fun s => (Py.Ok s.1, s) in
  let* st2 :=
    if decide (buffer_size st1 + line_length > max_chunk_size self)
    then on_overflow st1
    else Py.ret st1 in
  Py.ret (mk_loop (current_package st2) (buffer st2 ++ [line])
                  (buffer_size st2 + line_length) (tasks st2)).

(** The flush after the loop, under [if buffer:]. *)
Definition final_flush (st : loop) : Py.M store (list task) :=
  match buffer st with
  | [] => Py.ret (tasks st)
  | _ =>
      let* r := _flush_buffer (buffer st) (current_package st) in
      Py.ret (append_task (tasks st) r)
  end.

Definition loop_init : loop := mk_loop None [] 0 [].

(** [split_config(self, input_file, output_dir, annotation_dir)] up to the
    chunk files: [text] is the content of [input_file], the result is the
    list [tasks] handed to the annotation workers. *)
Definition split_config (text : string) : Py.M store (list task) :=
  let* st := Py.for_each split_line (Py.readlines text) loop_init in
  final_flush st.

(** ** [generate_annotation] *)

(** What [client.chat.completions.create] gives back: it raises, or it
    returns a response, of which the code reads
    [choices[i].message.content]; the content of a message may be [None]. *)
Definition completion : Type := Py.outcome (list (option string)).

Definition annotation_prompt (buffer_content current_package : string) (chunk_num : Z)
  : string :=
  "Please generate a summary annotation for the " +:+ Py.str_of_int chunk_num
  +:+ "th chunk file of the " +:+ current_package
  +:+ " package,it would be great if used in simple and easy-to-understand statements. Don't copy the code to the summary. The file content is as follows: "
  +:+ buffer_content.

Definition fallback_annotation (current_package : string) (chunk_num : Z) : string :=
  "This is the " +:+ Py.str_of_int chunk_num +:+ "th chunk file of the "
  +:+ current_package +:+ " package.".

(** [generate_annotation(self, buffer_content, current_package, chunk_num)];
    [client] is the remote model, from the prompt to what the call does. *)
Definition generate_annotation (client : string -> completion)
    (buffer_content current_package : string) (chunk_num : Z) : Py.outcome string :=
  let prompt := annotation_prompt buffer_content current_package chunk_num in
  Py.catch Py.is_Exception
    (match client prompt with
     | Py.Ok choices =>
         match choices with
         | [] => Py.Raise Py.IndexError             (* response.choices[0] *)
         | None :: _ => Py.Raise Py.AttributeError  (* None.strip() *)
         | Some content :: _ => Py.Ok (Py.strip content)
         end
     | Py.Raise e => Py.Raise e
     end)
    (fun _ => Py.Ok (fallback_annotation current_package chunk_num)).

End UCISplitter.

(* ===================================================================== *)
(** * The vector index and the mapping document *)
(* ===================================================================== *)

Module Faiss.

(** The part of a [faiss.IndexIVFFlat] that [config.py] depends on.  The
    library is not part of the repository; the model states how it
    numbers vectors.  A vector added without an explicit id gets the id
    [ntotal]; [remove_ids] drops the stored vectors whose id is selected
    and lowers [ntotal] by the number of vectors dropped.  A stored vector
    is represented by its id and the text it was computed from. *)
Record index : Type := mk {
  ntotal : Z;
  vectors : list (Z * string)
}.

(** A trained index without vectors. *)
Definition empty : index := mk 0 [].

(** [index.add(embedding)] for one vector *)
Definition add (text : string) (ix : index) : index :=
  mk (ntotal ix + 1) (vectors ix ++ [(ntotal ix, text)]).

(** [index.remove_ids(np.array(ids))] *)
Definition remove_ids (ids : list Z) (ix : index) : index :=
  let kept := filter (fun v => v.1 ∉ ids) (vectors ix) in
  mk (ntotal ix - (Z.of_nat (length (vectors ix)) - Z.of_nat (length kept))) kept.

End Faiss.

Module Json.

#[local] Set Warnings "-register-all".

(** The values [json.load] returns for the documents of interest: integers,
    strings, and objects, an object being the items of the [dict] in their
    order. *)
Inductive value : Type :=
  | Int (z : Z)
  | Str (s : string)
  | Obj (items : list (string * value)).

(** [d[key]] *)
Definition getitem (key : string) (v : value) : Py.outcome value :=
  match v with
  | Obj items =>
      match list_find (fun kv => kv.1 = key) items with
      | Some (_, kv) => Py.Ok kv.2
      | None => Py.Raise Py.KeyError
      end
  | _ => Py.Raise Py.TypeError
  end.

(** [d.items()] *)
Definition items (v : value) : Py.outcome (list (string * value)) :=
  match v with
  | Obj l => Py.Ok l
  | _ => Py.Raise Py.AttributeError
  end.

(** [int(v)] *)
Definition to_int (v : value) : Py.outcome Z :=
  match v with
  | Int z => Py.Ok z
  | Str s => match Py.int_of_str s with Some z => Py.Ok z | None => Py.Raise Py.ValueError end
  | Obj _ => Py.Raise Py.TypeError
  end.

End Json.

(* ===================================================================== *)
(** * [config.py]: synchronisation, persistence, retrieval *)
(* ===================================================================== *)

Module Config.

(** What [collect_print] records, by the call that records it. *)
Inductive message : Type :=
  | MappingsSaved (entries : nat)
  | MappingsFileMissing
  | MappingsLoaded (entries : nat)
  | MappingsLoadFailed (e : Py.exn)
  | OldVectorsDeleted (count : nat)
  | OldChunkDeleted (name : string)
  | TempFileWritten (name : string)
  | NewChunks (names : list string)
  | ConfigUpdated (count : nat)
  | VectorDbInitialised
  | Resolved (vector_id : Z) (file_path : option string)
  | NoPathForVector (vector_id : Z)
  | ChunkRead (file_path : string)
  | FileMissing (file_path : string)
  | Retrieved (count : nat)
  | KnowledgeAdded (file_path : string)
  | IncrementalUpdateFailed (e : Py.exn)
  | RequestFailed (e : Py.exn).

(** The module-level state of [config.py] and the files it owns.  The
    annotation directory is left out: nothing that is modelled reads it.
    [disk_faults] counts the coming writes of the index file or the
    mapping file that fail. *)
Record world : Type := mk_world {
  uci_configs : Dir.t;                         (* UCI_CONFIG_DIR *)
  knowledge : Dir.t;                           (* UCI_CONFIG_DIR / "knowledge" *)
  splitter : UCISplitter.t;
  vector_db : Faiss.index;
  file_path_to_vector_id : gmap string Z;
  vector_id_to_file_path : gmap Z string;
  index_file : option Faiss.index;             (* VECTOR_DB_PATH *)
  mappings_file : option Json.value;           (* MAPPINGS_PATH *)
  disk_faults : nat;
  messages : list message
}.

Definition set_uci_configs (d : Dir.t) (w : world) : world :=
  mk_world d (knowledge w) (splitter w) (vector_db w) (file_path_to_vector_id w)
    (vector_id_to_file_path w) (index_file w) (mappings_file w) (disk_faults w) (messages w).

Definition set_knowledge (d : Dir.t) (w : world) : world :=
  mk_world (uci_configs w) d (splitter w) (vector_db w) (file_path_to_vector_id w)
    (vector_id_to_file_path w) (index_file w) (mappings_file w) (disk_faults w) (messages w).

Definition set_splitter (sp : UCISplitter.t) (w : world) : world :=
  mk_world (uci_configs w) (knowledge w) sp (vector_db w) (file_path_to_vector_id w)
    (vector_id_to_file_path w) (index_file w) (mappings_file w) (disk_faults w) (messages w).

Definition set_vector_db (ix : Faiss.index) (w : world) : world :=
  mk_world (uci_configs w) (knowledge w) (splitter w) ix (file_path_to_vector_id w)
    (vector_id_to_file_path w) (index_file w) (mappings_file w) (disk_faults w) (messages w).

Definition set_mappings (f2i : gmap string Z) (i2f : gmap Z string) (w : world) : world :=
  mk_world (uci_configs w) (knowledge w) (splitter w) (vector_db w) f2i i2f
    (index_file w) (mappings_file w) (disk_faults w) (messages w).

Definition set_index_file (f : option Faiss.index) (w : world) : world :=
  mk_world (uci_configs w) (knowledge w) (splitter w) (vector_db w) (file_path_to_vector_id w)
    (vector_id_to_file_path w) f (mappings_file w) (disk_faults w) (messages w).

Definition set_mappings_file (f : option Json.value) (w : world) : world :=
  mk_world (uci_configs w) (knowledge w) (splitter w) (vector_db w) (file_path_to_vector_id w)
    (vector_id_to_file_path w) (index_file w) f (disk_faults w) (messages w).

Definition set_disk_faults (n : nat) (w : world) : world :=
  mk_world (uci_configs w) (knowledge w) (splitter w) (vector_db w) (file_path_to_vector_id w)
    (vector_id_to_file_path w) (index_file w) (mappings_file w) n (messages w).

Definition set_messages (ms : list message) (w : world) : world :=
  mk_world (uci_configs w) (knowledge w) (splitter w) (vector_db w) (file_path_to_vector_id w)
    (vector_id_to_file_path w) (index_file w) (mappings_file w) (disk_faults w) ms.

(** [collect_print(message)] *)
Definition collect_print (m : message) : Py.M world unit :=
  fun w => (Py.Ok tt, set_messages (messages w ++ [m]) w).

(** A state change that cannot fail. *)
Definition modify (f : world -> world) : Py.M world unit :=
  fun w => (Py.Ok tt, f w).

(** ** Paths *)

(** [str(UCI_CONFIG_DIR / name)] *)
Definition config_path (name : string) : string := "uci_configs/" +:+ name.

(** [str(UCI_CONFIG_DIR / "knowledge" / name)] *)
Definition knowledge_path (name : string) : string := "uci_configs/knowledge/" +:+ name.

(** The file a path names, when there is one. *)
Definition lookup_path (path : string) (w : world) : option string :=
  if Py.startswith "uci_configs/knowledge/" path
  then Dir.read (UCISplitter.drop_str 22 path) (knowledge w)
  else if Py.startswith "uci_configs/" path
  then Dir.read (UCISplitter.drop_str 12 path) (uci_configs w)
  else None.

(** [open(path).read()] *)
Definition read_text (path : string) : Py.M world string :=
  fun w =>
    match lookup_path path w with
    | Some content => (Py.Ok content, w)
    | None => (Py.Raise Py.FileNotFoundError, w)
    end.

(** [file.unlink()] for a file of [UCI_CONFIG_DIR] *)
Definition unlink (name : string) : Py.M world unit :=
  fun w =>
    if Dir.exists_ name (uci_configs w)
    then (Py.Ok tt, set_uci_configs (Dir.unlink name (uci_configs w)) w)
    else (Py.Raise Py.FileNotFoundError, w).

(** ** Persistence *)

(** A write of a whole file: it fails with [OSError] and leaves the file
    as it was while [disk_faults] is positive. *)
Definition disk_write (commit : world -> world) : Py.M world unit :=
  fun w =>
    match disk_faults w with
    | O => (Py.Ok tt, commit w)
    | S n => (Py.Raise Py.OSError, set_disk_faults n w)
    end.

(** [faiss.write_index(vector_db, str(VECTOR_DB_PATH))] *)
Definition write_index : Py.M world unit :=
  disk_write (fun w => set_index_file (Some (vector_db w)) w).

(** The document [save_mappings] dumps. *)
Definition mappings_document (f2i : gmap string Z) (i2f : gmap Z string) : Json.value :=
  Json.Obj
    [ ("file_to_id", Json.Obj ((fun kv => (kv.1, Json.Int kv.2)) <$> map_to_list f2i));
      ("id_to_file", Json.Obj ((fun kv => (Py.str_of_int kv.1, Json.Str kv.2)) <$> map_to_list i2f)) ].

(** [save_mappings()] *)
Definition save_mappings : Py.M world unit :=
  let* _ := disk_write (fun w =>
              set_mappings_file
                (Some (mappings_document (file_path_to_vector_id w) (vector_id_to_file_path w))) w) in
  let* w := Py.get in
  collect_print (MappingsSaved (size (file_path_to_vector_id w))).

(** A dict comprehension over converted items: a later item with the same
    key replaces an earlier one. *)
Fixpoint convert_items {K V} (conv : string * Json.value -> Py.outcome (K * V))
    (l : list (string * Json.value)) : Py.outcome (list (K * V)) :=
  match l with
  | [] => Py.Ok []
  | kv :: l' =>
      match conv kv with
      | Py.Ok x =>
          match convert_items conv l' with
          | Py.Ok xs => Py.Ok (x :: xs)
          | Py.Raise e => Py.Raise e
          end
      | Py.Raise e => Py.Raise e
      end
  end.

Definition file_to_id_item (kv : string * Json.value) : Py.outcome (string * Z) :=
  match Json.to_int kv.2 with
  | Py.Ok z => Py.Ok (kv.1, z)
  | Py.Raise e => Py.Raise e
  end.

(** A value of [id_to_file] is kept as it is; a value that is not a string
    has no place in a table of paths and is reported as [TypeError]. *)
Definition id_to_file_item (kv : string * Json.value) : Py.outcome (Z * string) :=
  match Json.to_int (Json.Str kv.1), kv.2 with
  | Py.Ok z, Json.Str s => Py.Ok (z, s)
  | Py.Ok _, _ => Py.Raise Py.TypeError
  | Py.Raise e, _ => Py.Raise e
  end.

(** The body of the [try] of [load_mappings]. *)
Definition parse_mappings (data : Json.value)
  : Py.outcome (gmap string Z * gmap Z string) :=
  match Json.getitem "file_to_id" data with
  | Py.Raise e => Py.Raise e
  | Py.Ok d1 =>
      match Json.items d1 with
      | Py.Raise e => Py.Raise e
      | Py.Ok l1 =>
          match convert_items file_to_id_item l1 with
          | Py.Raise e => Py.Raise e
          | Py.Ok f2i =>
              match Json.getitem "id_to_file" data with
              | Py.Raise e => Py.Raise e
              | Py.Ok d2 =>
                  match Json.items d2 with
                  | Py.Raise e => Py.Raise e
                  | Py.Ok l2 =>
                      match convert_items id_to_file_item l2 with
                      | Py.Raise e => Py.Raise e
                      | Py.Ok i2f =>
                          Py.Ok (list_to_map (reverse f2i), list_to_map (reverse i2f))
                      end
                  end
              end
          end
      end
  end.

(** [load_mappings()] *)
Definition load_mappings : Py.M world unit :=
  let* w := Py.get in
  match mappings_file w with
  | None => collect_print MappingsFileMissing
  | Some data =>
      match parse_mappings data with
      | Py.Ok (f2i, i2f) =>
          let* _ := modify (set_mappings f2i i2f) in
          collect_print (MappingsLoaded (size f2i))
      | Py.Raise e =>
          let* _ := collect_print (MappingsLoadFailed e) in
          modify (set_mappings ∅ ∅)
      end
  end.

(** ** Registration of one vector *)

(** The four statements that follow [get_embedding] wherever a vector is
    added: [vector_id = vector_db.ntotal], [vector_db.add(embedding)],
    [file_path_to_vector_id[file_path] = vector_id],
    [vector_id_to_file_path[vector_id] = file_path]. *)
Definition register (file_path content : string) : Py.M world unit :=
  modify (fun w =>
    let vector_id := Faiss.ntotal (vector_db w) in
    set_mappings (<[file_path := vector_id]> (file_path_to_vector_id w))
                 (<[vector_id := file_path]> (vector_id_to_file_path w))
      (set_vector_db (Faiss.add content (vector_db w)) w)).

(** Runs the chunker on [UCI_CONFIG_DIR] with the module-level [splitter]. *)
Definition run_splitter {A} (m : Py.M UCISplitter.store A) : Py.M world A :=
  fun w =>
    let '(r, (sp, out)) := m (splitter w, uci_configs w) in
    (r, set_splitter sp (set_uci_configs out w)).

(** The remote configuration source: what [uci export] and
    [uci export <package>] print. *)
Record router : Type := mk_router {
  export_all : string;
  export : string -> string
}.

(** ** [sync_modified_config] *)

(** Step 1: the chunk files of the packages, [glob(pkg_name + "_part*.txt")]
    for each package in turn. *)
Definition old_config_files (packages : list string) (w : world) : list string :=
  concat ((fun package => Dir.glob (Py.replace_dot package +:+ "_part") ".txt" (uci_configs w))
          <$> packages).

(** Step 2, the ids to delete: [file_path_to_vector_id.get(str(file), -1)]
    when it is not [-1]. *)
Definition delete_vector_ids (files : list string) (w : world) : list Z :=
  filter (fun v => v <> -1)
    ((fun name => default (-1) (file_path_to_vector_id w !! config_path name)) <$> files).

(** Step 2, under [if delete_vector_ids:]. *)
Definition delete_old_vectors (files : list string) : Py.M world unit :=
  let* w := Py.get in
  let ids := delete_vector_ids files w in
  match ids with
  | [] => Py.ret tt
  | _ =>
      let* _ := modify (fun w =>
        set_mappings
          (foldl (fun m name => delete (config_path name) m) (file_path_to_vector_id w) files)
          (foldl (fun m vector_id => delete vector_id m) (vector_id_to_file_path w) ids)
          (set_vector_db (Faiss.remove_ids ids (vector_db w)) w)) in
      collect_print (OldVectorsDeleted (length ids))
  end.

(** Step 3 *)
Definition delete_old_files (files : list string) : Py.M world unit :=
  Py.for_each (fun _ name =>
      let* _ := unlink name in
      collect_print (OldChunkDeleted name))
    files tt.

(** Step 4, one package: the names appended to [updated_chunks]. *)
Definition regenerate (r : router) (updated : list string) (package : string)
  : Py.M world (list string) :=
  let package_config := export r package in
  match package_config with
  | EmptyString => Py.ret updated
  | _ =>
      let temp_file := "temp_" +:+ package +:+ ".txt" in
      let* _ := collect_print (TempFileWritten temp_file) in
      let* _ := modify (fun w => set_uci_configs (Dir.write temp_file package_config (uci_configs w)) w) in
      let* _ := run_splitter (UCISplitter.split_config package_config) in
      let* _ := unlink temp_file in
      let* w := Py.get in
      let new_config_chunks :=
        Dir.glob (Py.replace_dot package +:+ "_part") ".txt" (uci_configs w) in
      let* _ := collect_print (NewChunks new_config_chunks) in
      Py.ret (updated ++ new_config_chunks)
  end.

(** Step 5, one chunk file *)
Definition add_chunk (name : string) : Py.M world unit :=
  let* content := read_text (config_path name) in
  register (config_path name) content.

(** [sync_modified_config(router_ip, packages)]; [packages] in the order
    in which the set is iterated. *)
Definition sync_modified_config (r : router) (packages : list string)
  : Py.M world (list string) :=
  let* w := Py.get in
  let files := old_config_files packages w in
  let* _ := delete_old_vectors files in
  let* _ := delete_old_files files in
  let* updated_chunks := Py.for_each (regenerate r) packages [] in
  let* _ := Py.for_each (fun _ name => add_chunk name) updated_chunks tt in
  let* _ := write_index in
  let* _ := save_mappings in
  let* _ := collect_print (ConfigUpdated (length updated_chunks)) in
  Py.ret updated_chunks.

(** ** [sync_and_split_config] *)

(** The body of the loop over [UCI_CONFIG_DIR.glob("*.txt")]. *)
Definition add_unless_knowledge (_ : unit) (name : string) : Py.M world unit :=
  if Py.startswith "knowledge_" name then Py.ret tt else add_chunk name.

Definition sync_and_split_config (r : router) : Py.M world unit :=
  let* _ := modify (set_mappings ∅ ∅) in
  let full_config := export_all r in
  let* _ := modify (fun w => set_uci_configs (Dir.write "full_config.uci" full_config (uci_configs w)) w) in
  let* _ := run_splitter (UCISplitter.split_config full_config) in
  let* w := Py.get in
  let* _ := Py.for_each add_unless_knowledge (Dir.glob "" ".txt" (uci_configs w)) tt in
  let* _ := write_index in
  let* _ := save_mappings in
  collect_print VectorDbInitialised.

(** ** [retrieve_relevant_chunks] *)

(** One iteration of the loop over [indices[0]]. *)
Definition retrieve_one (relevant_chunks : list string) (vector_id : Z)
  : Py.M world (list string) :=
  let* w := Py.get in
  let file_path := vector_id_to_file_path w !! vector_id in
  let* _ := collect_print (Resolved vector_id file_path) in
  match file_path with
  | None | Some EmptyString =>
      let* _ := collect_print (NoPathForVector vector_id) in
      Py.ret relevant_chunks
  | Some path =>
      Py.try_except Py.is_FileNotFoundError
        (let* content := read_text path in
         let* _ := collect_print (ChunkRead path) in
         Py.ret (relevant_chunks ++ [content]))
        (fun _ =>
           let* _ := collect_print (FileMissing path) in
           Py.ret relevant_chunks)
  end.

Definition blank_line : string := String "010"%char (String "010"%char EmptyString).

(** [retrieve_relevant_chunks(query, top_k)] from the result of the search:
    [indices] is the row [indices[0]] that [vector_db.search] returned. *)
Definition retrieve_relevant_chunks (indices : list Z) : Py.M world string :=
  let* relevant_chunks := Py.for_each retrieve_one indices [] in
  let* _ := collect_print (Retrieved (length relevant_chunks)) in
  Py.ret (Py.join blank_line relevant_chunks).

(** ** The incremental update of [generate_script] *)

(** The full-width colon of the knowledge file, as UTF-8. *)
Definition fullwidth_colon : string :=
  String "239"%char (String "188"%char (String "154"%char EmptyString)).

Definition knowledge_text (command script relevant_configs : string) : string :=
  "#User answer" +:+ fullwidth_colon +:+ command +:+ blank_line +:+ "# scripts:"
  +:+ String "010"%char script +:+ blank_line +:+ "# relevant configs:"
  +:+ String "010"%char relevant_configs.

(** [f"knowledge_{hashlib.md5(command.encode()).hexdigest()[:8]}.txt"] *)
Definition knowledge_name (command : string) : string :=
  "knowledge_" +:+ Py.take_str 8 (Md5.hexdigest command) +:+ ".txt".

(** Steps 3 and 4 of the update: the knowledge unit is written, embedded,
    registered and persisted. *)
Definition add_knowledge (command script relevant_configs : string) : Py.M world unit :=
  let knowledge_file := knowledge_name command in
  let text := knowledge_text command script relevant_configs in
  let* _ := modify (fun w => set_knowledge (Dir.write knowledge_file text (knowledge w)) w) in
  let* content := read_text (knowledge_path knowledge_file) in
  let* _ := register (knowledge_path knowledge_file) content in
  let* _ := write_index in
  let* _ := save_mappings in
  collect_print (KnowledgeAdded (knowledge_path knowledge_file)).

(** The body of the inner [try] of [generate_script].  [packages] is what
    the scan of the script for [uci add|set|delete|get <package>.] finds;
    [get_modified_packages] raises [ValueError] when it finds nothing.
    The note written last into the annotation directory is left out with
    that directory. *)
Definition incremental_update (r : router) (command script relevant_configs : string)
    (packages : list string) : Py.M world unit :=
  match packages with
  | [] => Py.raise Py.ValueError
  | _ =>
      let* _ := sync_modified_config r packages in
      add_knowledge command script relevant_configs
  end.

(** What [generate_script] returns. *)
Record response : Type := mk_response {
  response_script : string;
  execution_result : string;
  response_messages : list message
}.

(** [generate_script] from the point where the script has run on the
    router: the inner [try ... except Exception] and the [return]. *)
Definition finish_request (r : router) (command script relevant_configs message : string)
    (packages : list string) : Py.M world response :=
  let* _ := Py.try_except Py.is_Exception
              (incremental_update r command script relevant_configs packages)
              (fun e => collect_print (IncrementalUpdateFailed e)) in
  let* w := Py.get in
  Py.ret (mk_response script message (messages w)).

(** The state in which the service starts when no index file exists:
    empty directories, the splitter of [config.py], a trained index without
    vectors, empty dictionaries. *)
Definition initial_world : world :=
  mk_world [] [] (UCISplitter.__init__ 500 20) Faiss.empty ∅ ∅ None None O [].

(** [generate_script(request)]: the parts played by the language model,
    the validator and the router are arguments — [indices] is what the
    search returns, [script] the extracted script, [message] the output of
    its execution and [packages] the packages it modifies.  [initial] is
    the router of the first full synchronisation, [r] the router of the
    request as the script has left it. *)
Definition generate_script (initial r : router) (command : string) (indices : list Z)
    (script message : string) (packages : list string) : Py.M world response :=
  let* _ := modify (set_messages []) in
  Py.try_except Py.is_Exception
    (let* w := Py.get in
     let* _ := match Dir.glob "" ".txt" (uci_configs w) with
               | [] => sync_and_split_config initial
               | _ => Py.ret tt
               end in
     let* relevant_configs := retrieve_relevant_chunks indices in
     finish_request r command script relevant_configs message packages)
    (fun e =>
       let* _ := collect_print (RequestFailed e) in
       Py.raise e).

(** ** [initialize_vector_db] *)

(** [initialize_vector_db()]: with an index file, the index is read and
    the mapping table loaded; without one, a new index is trained and the
    dictionaries are left alone.  The message about the number of vectors
    is left out. *)
Definition initialize_vector_db : Py.M world unit :=
  let* w := Py.get in
  match index_file w with
  | Some ix =>
      let* _ := modify (set_vector_db ix) in
      load_mappings
  | None => modify (set_vector_db Faiss.empty)
  end.

(** ** [get_modified_packages] *)

(** A dot at an index of at least one. *)
Definition dot_after_first (run : string) : bool :=
  match run with
  | String _ rest => Py.contains "." rest
  | EmptyString => false
  end.

(** The pattern [uci (add|set|delete|get) (\S+)\.] tried at the start of
    [s]: after the verb and one space comes the whole run of non-blanks,
    which has to hold a dot at an index of at least one.  The result is
    [match.group(2).split('.')[0]], what precedes the first dot of the
    run. *)
Definition uci_command_at (s : string) : option string :=
  if Py.startswith "uci " s then
    let s1 := UCISplitter.drop_str 4 s in
    match List.find (fun verb => Py.startswith (verb +:+ " ") s1)
                    ["add"; "set"; "delete"; "get"] with
    | Some verb =>
        let run := (UCISplitter.span_nonspace
                      (UCISplitter.drop_str (S (String.length verb)) s1)).1 in
        if dot_after_first run then Some (Py.before_char "."%char run) else None
    | None => None
    end
  else None.

(** [package_pattern.search(line)], the leftmost match, as the package
    name the loop derives from it. *)
Fixpoint search_uci_command (line : string) : option string :=
  match uci_command_at line with
  | Some package => Some package
  | None =>
      match line with
      | String _ rest => search_uci_command rest
      | EmptyString => None
      end
  end.

(** [packages.add(package)] on the elements listed in the order in which
    they were first added. *)
Definition set_add (package : string) (packages : list string) : list string :=
  if decide (package ∈ packages) then packages else packages ++ [package].

(** [get_modified_packages(script)].  The set is given by its elements in
    the order of their first occurrence in the script; the order in which
    Python iterates over it is not fixed by the code.  The messages are
    left out. *)
Definition get_modified_packages (script : string) : Py.outcome (list string) :=
  let packages :=
    foldl (fun packages line =>
             match search_uci_command line with
             | Some package => set_add package packages
             | None => packages
             end)
          [] (Py.split_lines script) in
  match packages with
  | [] => Py.Raise Py.ValueError
  | _ => Py.Ok packages
  end.

(** ** [extract_code_block] *)

Definition opens_code_block (line : string) : bool :=
  Py.startswith " ```bash" line || Py.startswith "```bash" line.

(** The loop of [extract_code_block] from the flag and the lines collected
    so far; [break] ends it. *)
Fixpoint scan_code_block (in_code_block : bool) (code_block lines : list string)
  : list string :=
  match lines with
  | [] => code_block
  | line :: rest =>
      if opens_code_block line && negb in_code_block
      then scan_code_block true code_block rest
      else if in_code_block
      then if Py.startswith "```" line
           then code_block
           else scan_code_block true (code_block ++ [line]) rest
      else scan_code_block false code_block rest
  end.

Definition newline : string := String "010"%char EmptyString.

(** [extract_code_block(text)] *)
Definition extract_code_block (text : string) : option string :=
  match scan_code_block false [] (Py.split_lines text) with
  | [] => None
  | code_block => Some (Py.join newline code_block)
  end.

(** ** [validate_uci_script] *)

(** The double quote. *)
Definition dquote : string := String "034"%char EmptyString.

Definition dangerous_commands : list string :=
  ["rm "; "mv "; " dd "; "format "; "mkfs "; ">"; ">>"].

(** What is left of a line when the checks start: the part before the
    first [#], and of that the part before the first double quote. *)
Definition inspected (line : string) : string :=
  let line :=
    if Py.contains "#" line then Py.before_char "#"%char line else line in
  if Py.contains dquote line then Py.before_char "034"%char line else line.

(** The loop over the lines: the first dangerous command found. *)
Fixpoint first_dangerous (lines : list string) : option string :=
  match lines with
  | [] => None
  | line :: rest =>
      if Py.startswith "#" line then first_dangerous rest
      else
        match List.find (fun command => Py.contains command (inspected line))
                        dangerous_commands with
        | Some command => Some command
        | None => first_dangerous rest
        end
  end.

Definition dangerous_message (command : string) : string :=
  "危险命令 " +:+ command +:+ " 存在，检查不通过".

Definition trap_line : string :=
  "trap 'echo " +:+ dquote +:+ "An error occurred in the script. Exiting..." +:+ dquote
  +:+ "; exit 1' ERR".

(** [validate_uci_script(script)]; the messages are left out. *)
Definition validate_uci_script (script : string) : bool * string :=
  match Py.strip script with
  | EmptyString => (false, "Empty script")
  | _ =>
      match first_dangerous (Py.split_lines script) with
      | Some command => (false, dangerous_message command)
      | None =>
          let script :=
            if Py.startswith "#!/bin/sh" script then script
            else "#!/bin/sh" +:+ newline +:+ script in
          let script :=
            if Py.contains "trap" script then script
            else script +:+ newline +:+ trap_line in
          (true, script)
      end
  end.

End Config.

(* ===================================================================== *)
(** * Vocabulary of the properties, and the inputs they are tried on *)
(* ===================================================================== *)

Module SplitterSpec.
Import UCISplitter.

(** The line terminator. *)
Definition LF : string := String "010"%char EmptyString.

(** What a flush maintains: the chunk files of all tasks exist, and unless
    a task was recorded the object still has no digest. *)
Definition recorded (ts : list task) (s : store) : Prop :=
  (ts <> [] \/ last_buffer_hash s.1 = None) /\
  Forall (fun tk => filename tk ∈ Dir.names s.2) ts.

(** The first line of the text is a package declaration. *)
Definition first_line_declares_package (text : string) : bool :=
  match Py.readlines text with
  | l :: _ => match package_pattern l with Some _ => true | None => false end
  | [] => false
  end.

(** The property as the design document words it: whatever the object and
    the directory, a non-empty input gives at least one chunk. *)
Definition every_nonempty_input_is_chunked : Prop :=
  forall (s : store) (text : string),
    text <> EmptyString ->
    exists ts s', split_config text s = (Py.Ok ts, s') /\ (1 <= length ts)%nat.

(** A configuration section without a package line before it. *)
Definition headless_text : string := "config interface 'lan'" +:+ LF.

(** The export of a small package. *)
Definition system_text : string :=
  "package system" +:+ LF +:+ LF +:+
  "config system 'main'" +:+ LF +:+
  "	option hostname 'OpenWrt'" +:+ LF.

(** The last [k] elements of a list (all of it when it is shorter). *)
Definition last_lines {A} (k : nat) (l : list A) : list A :=
  drop (length l - k) l.

(** Four lines of a package [p]. *)
Definition line_package : string := "package p" +:+ LF.
Definition line_config : string := "config a 'b'" +:+ LF.
Definition line_option1 : string := "option x 1" +:+ LF.
Definition line_option2 : string := "option y 2" +:+ LF.

(** The loop variables after the first three lines, for
    [UCISplitter(max_chunk_size=40, overlap=0)]: 34 characters buffered. *)
Definition before_cut : loop :=
  mk_loop (Some "p") [line_package; line_config; line_option1] 34 [].

(** The four lines as one text. *)
Definition four_lines : string :=
  line_package +:+ line_config +:+ line_option1 +:+ line_option2.

(** A firewall rule with [n] option lines, as [uci export] prints it. *)
Definition rule_lines (n : nat) : list string :=
  [ "package firewall" +:+ LF; LF; "config rule 'r1'" +:+ LF ]
  ++ repeat ("	option src_ip '192.168.1.1'" +:+ LF) n.

Definition rule_text (n : nat) : string := Py.join_empty (rule_lines n).

(** The length of the longest line of a text. *)
Definition longest_line (text : string) : Z :=
  fold_right Z.max 0 (Py.len <$> Py.readlines text).

(** A model that times out. *)
Definition unreachable_model : string -> completion := fun _ => Py.Raise Py.TimeoutError.

End SplitterSpec.

Module ConfigSpec.
Import Config.

(** A table with two chunks and a knowledge unit. *)
Definition sample_world : world :=
  set_mappings
    {[ "uci_configs/network_part1.txt" := 0; "uci_configs/network_part2.txt" := 1;
       "uci_configs/knowledge/knowledge_0a1b2c3d.txt" := 12 ]}
    {[ 0 := "uci_configs/network_part1.txt"; 1 := "uci_configs/network_part2.txt";
       12 := "uci_configs/knowledge/knowledge_0a1b2c3d.txt" ]}
    initial_world.

(** The chunk text an id leads to: the id has an entry, the entry is not
    the empty path, and the file is there. *)
Definition resolve (w : world) (vector_id : Z) : option string :=
  match vector_id_to_file_path w !! vector_id with
  | None | Some EmptyString => None
  | Some path => lookup_path path w
  end.

(** Every exception the computation raises satisfies [P]. *)
Definition raises_only {S A} (P : Py.exn -> Prop) (m : Py.M S A) : Prop :=
  forall s e s', m s = (Py.Raise e, s') -> P e.

(** The files of the index and of the mapping table, and the faults to
    come, are the same in both states. *)
Definition same_disk (w w' : world) : Prop :=
  index_file w' = index_file w /\ mappings_file w' = mappings_file w /\
  disk_faults w' = disk_faults w.

(** A computation that neither writes one of the two files nor fails like
    a write. *)
Definition off_disk {A} (m : Py.M world A) : Prop :=
  (forall w, same_disk w (m w).2) /\ raises_only (fun e => e <> Py.OSError) m.

(** A computation that, when the next write fails, raises: either the
    [OSError] of that one write, or something else before any write; the
    two files are as they were. *)
Definition fails_on_fault {A} (m : Py.M world A) : Prop :=
  forall w, (0 < disk_faults w)%nat ->
  exists e w',
    m w = (Py.Raise e, w') /\
    index_file w' = index_file w /\ mappings_file w' = mappings_file w /\
    ((e = Py.OSError /\ disk_faults w = S (disk_faults w')) \/
     (e <> Py.OSError /\ disk_faults w' = disk_faults w)).

(** [uci export system] on a router with the given host name. *)
Definition system_export (hostname : string) : string :=
  "package system" +:+ SplitterSpec.LF +:+ SplitterSpec.LF +:+
  "config system 'main'" +:+ SplitterSpec.LF +:+
  "	option hostname '" +:+ hostname +:+ "'" +:+ SplitterSpec.LF.

(** A router whose only package is [system]. *)
Definition router_named (hostname : string) : router :=
  mk_router (system_export hostname)
    (fun package => if String.eqb package "system" then system_export hostname else EmptyString).

(** The script a request to rename the router leads to. *)
Definition rename_script (hostname : string) : string :=
  "uci set system.@system[0].hostname='" +:+ hostname +:+ "'".

(** The path of the only chunk of that package. *)
Definition system_chunk : string := "uci_configs/system_part1.txt".

(** The first request on a fresh service renames the router to [alpha]:
    full synchronisation, retrieval, incremental update. *)
Definition first_request : Py.outcome response * world :=
  generate_script (router_named "OpenWrt") (router_named "alpha")
    "rename the router to alpha" [0; -1] (rename_script "alpha") EmptyString ["system"]
    initial_world.

(** The second request renames it to [beta]. *)
Definition second_request : Py.outcome response * world :=
  generate_script (router_named "OpenWrt") (router_named "beta")
    "rename the router to beta" [0; 1] (rename_script "beta") EmptyString ["system"]
    first_request.2.

(** The paths of the knowledge units of the two requests. *)
Definition knowledge_alpha : string :=
  knowledge_path (knowledge_name "rename the router to alpha").

Definition knowledge_beta : string :=
  knowledge_path (knowledge_name "rename the router to beta").

(** The two dictionaries are inverse to each other. *)
Definition inverse_tables (w : world) : Prop :=
  forall path vector_id,
    file_path_to_vector_id w !! path = Some vector_id <->
    vector_id_to_file_path w !! vector_id = Some path.

(** Every id of the table is below [ntotal], so that [ntotal] is not in
    use. *)
Definition ids_below_ntotal (w : world) : Prop :=
  forall vector_id path,
    vector_id_to_file_path w !! vector_id = Some path ->
    vector_id < Faiss.ntotal (vector_db w).

Definition well_numbered (w : world) : Prop :=
  inverse_tables w /\ ids_below_ntotal w.

(** No two files of the directory have the same name. *)
Definition distinct_names (d : Dir.t) : Prop := NoDup (Dir.names d).

(** The same history, one insertion at a time. *)
Definition after_full_sync : world :=
  (sync_and_split_config (router_named "OpenWrt") initial_world).2.

Definition after_first_update : world :=
  (sync_modified_config (router_named "alpha") ["system"] after_full_sync).2.

Definition after_knowledge : world :=
  (add_knowledge "rename the router to alpha" (rename_script "alpha") EmptyString
     after_first_update).2.

Definition after_second_update : world :=
  (sync_modified_config (router_named "beta") ["system"] after_knowledge).2.

(** The module-scoped synchronisation run a second time on the text it
    has just chunked. *)
Definition after_replay : world :=
  (sync_modified_config (router_named "alpha") ["system"] after_first_update).2.

(** The chunk files of [UCI_CONFIG_DIR]. *)
Definition chunk_files (w : world) : list string := Dir.glob "" ".txt" (uci_configs w).

(** The state after the full synchronisation, with the next write of a
    file failing and the one after it succeeding. *)
Definition one_fault : world := set_disk_faults 1 after_full_sync.

(** The property as the design document words it: when a write has failed
    during the update and the request still reports success, the index
    and the table in memory are the ones on disk. *)
Definition reported_success_is_durable : Prop :=
  forall (r : router) (command script relevant_configs message : string)
         (packages : list string) (w w' : world) (resp : response),
    finish_request r command script relevant_configs message packages w = (Py.Ok resp, w') ->
    (disk_faults w' < disk_faults w)%nat ->
    index_file w' = Some (vector_db w') /\
    mappings_file w' = Some (mappings_document (file_path_to_vector_id w')
                                               (vector_id_to_file_path w')).

End ConfigSpec.

Module ScriptSpec.
Import Config.

(** The string has no newline. *)
Definition one_line (s : string) : Prop :=
  Forall (fun c => c <> "010"%char) (list_ascii_of_string s).

(** A line that closes a code block. *)
Definition closes_code_block (line : string) : bool := Py.startswith "```" line.

(** The string is made of blanks only. *)
Definition blank (s : string) : Prop :=
  Forall (fun c => Py.is_space c = true) (list_ascii_of_string s).

(** The character does not occur in the string. *)
Definition lacks (c : ascii) (s : string) : Prop :=
  Forall (fun x => x <> c) (list_ascii_of_string s).

(** No dangerous command occurs in the text. *)
Definition harmless (text : string) : Prop :=
  Forall (fun command => Py.contains command text = false) dangerous_commands.

(** A script as the language model writes it. *)
Definition rename_lines : list string :=
  ["uci set system.@system[0].hostname='alpha'  # new name"; "uci commit system"].

(** The string has no blank. *)
Definition solid (s : string) : Prop :=
  Forall (fun c => Py.is_space c = false) (list_ascii_of_string s).

(** The four verbs of the pattern of [get_modified_packages]. *)
Definition uci_verbs : list string := ["add"; "set"; "delete"; "get"].

(** The end of a code block: nothing, or a closing line and what follows. *)
Definition block_end (rest : list string) : Prop :=
  rest = [] \/ exists closer post, rest = closer :: post /\ closes_code_block closer = true.

(** A text with a code block. *)
Definition answer_lines : list string :=
  ["Use this script:"; "```bash"; "uci set system.@system[0].hostname='alpha'";
   "uci commit system"; "```"; "It renames the router."].

End ScriptSpec.

Module SyncSpec.
Import Config ConfigSpec.

(** The index and the two dictionaries in memory are the ones on disk. *)
Definition durable (w : world) : Prop :=
  index_file w = Some (vector_db w) /\
  mappings_file w = Some (mappings_document (file_path_to_vector_id w)
                                            (vector_id_to_file_path w)).

(** Two processes see the same two files. *)
Definition same_files (w0 w : world) : Prop :=
  index_file w0 = index_file w /\ mappings_file w0 = mappings_file w.

(** The index and the two dictionaries are the same in both states. *)
Definition same_memory (w1 w : world) : Prop :=
  vector_db w1 = vector_db w /\
  file_path_to_vector_id w1 = file_path_to_vector_id w /\
  vector_id_to_file_path w1 = vector_id_to_file_path w.

(** A process that starts with the files another one has left. *)
Definition restarted (w : world) : world :=
  set_messages [] (set_mappings ∅ ∅ (set_vector_db Faiss.empty w)).

(** The chunk file can be retrieved: it has an id, the id leads back to
    its path, and the index holds under this id the vector of what the
    file contains. *)
Definition retrievable (w : world) (name : string) : Prop :=
  exists vector_id content,
    file_path_to_vector_id w !! config_path name = Some vector_id /\
    vector_id_to_file_path w !! vector_id = Some (config_path name) /\
    (vector_id, content) ∈ Faiss.vectors (vector_db w) /\
    lookup_path (config_path name) w = Some content.

(** A mapping document without the table of the ids. *)
Definition half_document : Json.value :=
  Json.Obj [("file_to_id", Json.Obj [("uci_configs/network_part1.txt", Json.Int 0)])].

End SyncSpec.

Module ChunkSpec.
Import UCISplitter.

(** A package name that is part of a file name and of a glob pattern as it
    stands: without path separator and without glob metacharacter. *)
Definition plain_name (pkg : string) : Prop :=
  Forall (fun c => c <> "/"%char /\ c <> "*"%char /\ c <> "?"%char /\ c <> "["%char)
         (list_ascii_of_string pkg).

(** The chunk files of the tasks are among the files that
    [glob(pkg_name + "_part*.txt")] lists for the package of the task. *)
Definition chunks_listed (ts : list task) (s : store) : Prop :=
  Forall (fun tk => plain_name (task_package tk) ->
                    filename tk ∈
                    Dir.glob (Py.replace_dot (task_package tk) +:+ "_part") ".txt" s.2) ts.

(** A directory that holds the export the chunker is run on. *)
Definition export_dir : Dir.t := [("full_config.uci", SplitterSpec.system_text)].

End ChunkSpec.

(* ===================================================================== *)
(** * Properties of the chunker *)
(* ===================================================================== *)

Module SplitterFacts.
Import UCISplitter SplitterSpec.

(** ** The digest *)

(** The digests of the empty string and of two short strings, as
    [hashlib] gives them. *)
Example hexdigest_test_vectors :
  Md5.hexdigest "" = "d41d8cd98f00b204e9800998ecf8427e" /\
  Md5.hexdigest "abc" = "900150983cd24fb0d6963f7d28e17f72" /\
  Md5.hexdigest "rename the router to alpha" = "e01bc519c56222b41fba4fbb92576664".
Proof. repeat split; vm_compute; reflexivity. Qed.

(** ** The directory *)

Lemma names_write (n c : string) (d : Dir.t) (x : string) :
  x ∈ Dir.names (Dir.write n c d) <-> x = n \/ x ∈ Dir.names d.
Proof.
  unfold Dir.names. induction d as [|[m c'] d IH]; simpl.
  - rewrite list_elem_of_singleton. split; [by left | intros [?|Hx]; [done | by apply elem_of_nil in Hx]].
  - destruct (String.eqb_spec m n) as [->|Hne]; simpl.
    + rewrite !elem_of_cons. tauto.
    + rewrite !elem_of_cons, IH. tauto.
Qed.

(** ** The loop combinator *)

Lemma for_each_invariant {S A X} (I : A -> S -> Prop) (body : A -> X -> Py.M S A)
    (l : list X) :
  (forall a x s, x ∈ l -> I a s ->
     exists a' s', body a x s = (Py.Ok a', s') /\ I a' s') ->
  forall a s, I a s ->
    exists a' s', Py.for_each body l a s = (Py.Ok a', s') /\ I a' s'.
Proof.
  induction l as [|x l IH]; intros Hbody a s HI; simpl.
  - exists a, s. split; [reflexivity | assumption].
  - destruct (Hbody a x s) as (a1 & s1 & Hb & HI1); [left | assumption |].
    unfold Py.bind at 1. rewrite Hb.
    apply IH; [|assumption].
    intros a0 x0 s0 Hin. apply Hbody. by right.
Qed.

(** ** [_flush_buffer] once a package is known *)

(** With a package name the flush returns normally; it writes a chunk
    file and stores a digest, or it changes nothing. *)
Lemma flush_with_package (buf : list string) (pkg : string) (sp : t) (out : Dir.t) :
  exists r sp' out',
    _flush_buffer buf (Some pkg) (sp, out) = (Py.Ok r, (sp', out')) /\
    ((r = None /\ sp' = sp /\ out' = out /\
        (buf = [] \/ last_buffer_hash sp <> None)) \/
     (exists tk, r = Some tk /\ last_buffer_hash sp' <> None /\
        buf <> [] /\ buffer_content tk = Py.join_empty buf /\
        filename tk ∈ Dir.names out' /\
        forall x, x ∈ Dir.names out -> x ∈ Dir.names out')).
Proof.
  unfold _flush_buffer. destruct buf as [|l buf].
  - exists None, sp, out. split; [reflexivity|]. left. tauto.
  - case_decide as Hh.
    + exists None, sp, out. split; [reflexivity|]. left.
      repeat split; try reflexivity. right. rewrite <- Hh. discriminate.
    + eexists (Some _), _, _. split; [reflexivity|]. right.
      eexists. split; [reflexivity|]. simpl.
      repeat split; try discriminate.
      * apply names_write. by left.
      * intros x Hx. apply names_write. by right.
Qed.

Lemma flush_recorded (buf : list string) (pkg : string) (ts : list task) (s : store) :
  recorded ts s ->
  exists r s',
    _flush_buffer buf (Some pkg) s = (Py.Ok r, s') /\
    recorded (append_task ts r) s' /\
    (buf <> [] -> append_task ts r <> []).
Proof.
  destruct s as [sp out]. intros [Hts Hfiles].
  destruct (flush_with_package buf pkg sp out) as (r & sp' & out' & Hf & Hcase).
  exists r, (sp', out'). split; [exact Hf|].
  destruct Hcase as [(-> & -> & -> & Hwhy) | (tk & -> & Hh & Hbuf & _ & Hin & Hmono)]; simpl.
  - split; [split; assumption|].
    intros Hne. destruct Hwhy as [?|Hh]; [contradiction|].
    destruct Hts as [?|Hnone]; [assumption | simpl in Hnone; contradiction].
  - split; [split|].
    + left. intros Happ. by apply app_eq_nil in Happ as [_ ?].
    + apply Forall_app. split.
      * eapply Forall_impl; [exact Hfiles|]. simpl. intros x. apply Hmono.
      * by apply Forall_singleton.
    + intros _ Happ. by apply app_eq_nil in Happ as [_ ?].
Qed.

(** One iteration of the loop, when the package is known or the line
    declares it. *)
Lemma split_line_recorded (st : loop) (line : string) (s : store) :
  recorded (tasks st) s ->
  (buffer st = [] \/ current_package st <> None) ->
  (current_package st <> None \/ package_pattern line <> None) ->
  exists st' s',
    split_line st line s = (Py.Ok st', s') /\
    recorded (tasks st') s' /\
    current_package st' <> None /\ buffer st' <> [].
Proof.
  intros Hrec Hbuf Hpkg.
  (* the package line *)
  assert (exists st1 s1, on_package st line s = (Py.Ok st1, s1) /\
            recorded (tasks st1) s1 /\ current_package st1 <> None)
    as (st1 & s1 & H1 & Hrec1 & Hcp1).
  { unfold on_package. destruct (package_pattern line) as [g|].
    - destruct (buffer st) as [|l0 b0] eqn:Eb.
      + eexists _, s. split; [reflexivity|]. simpl. split; [assumption | discriminate].
      + destruct Hbuf as [?|Hcp]; [discriminate|].
        destruct (current_package st) as [pkg|] eqn:Ecp; [|contradiction].
        destruct (flush_recorded (l0 :: b0) pkg (tasks st) s Hrec)
          as (r & s' & Hf & Hrec' & _).
        eexists _, s'. unfold Py.bind, Py.ret. rewrite Hf. simpl.
        split; [reflexivity|]. split; [assumption | discriminate].
    - exists st, s. split; [reflexivity|]. split; [assumption|].
      destruct Hpkg as [?|?]; [assumption | contradiction]. }
  (* the size check *)
  assert (exists st2 s2,
            (if decide (buffer_size st1 + Py.len line > max_chunk_size s1.1)
             then on_overflow st1 else Py.ret st1) s1 = (Py.Ok st2, s2) /\
            recorded (tasks st2) s2 /\ current_package st2 <> None)
    as (st2 & s2 & H2 & Hrec2 & Hcp2).
  { case_decide; [|exists st1, s1; split; [reflexivity | split; assumption]].
    unfold on_overflow, Py.bind. simpl.
    destruct (current_package st1) as [pkg|] eqn:Ecp; [|contradiction].
    case_decide.
    - destruct (flush_recorded (Py.slice_to (last_config_pos (buffer st1) + 1) (buffer st1))
                  pkg (tasks st1) s1 Hrec1) as (r & s' & Hf & Hrec' & _).
      rewrite Hf. eexists _, s'. split; [reflexivity|]. simpl.
      split; [assumption | discriminate].
    - destruct (flush_recorded (buffer st1) pkg (tasks st1) s1 Hrec1)
        as (r & s' & Hf & Hrec' & _).
      rewrite Hf. eexists _, s'. split; [reflexivity|]. simpl.
      split; [assumption | discriminate]. }
  unfold split_line, Py.bind at 1. rewrite H1.
  unfold Py.bind. simpl. rewrite H2.
  eexists _, s2. split; [reflexivity|]. simpl.
  repeat split; try apply Hrec2; try assumption.
  intros Happ. by apply app_eq_nil in Happ as [_ ?].
Qed.

(** ** Number of chunks of one invocation *)

Lemma split_config_headless :
  exists s', split_config headless_text (__init__ 500 20, []) = (Py.Raise Py.AttributeError, s')
             /\ s'.2 = [].
Proof. eexists. split; vm_compute; reflexivity. Qed.

Lemma split_config_same_text_twice :
  exists ts1 sp1 out1,
    split_config system_text (__init__ 500 20, []) = (Py.Ok ts1, (sp1, out1)) /\
    length ts1 = 1%nat /\
    split_config system_text (sp1, []) = (Py.Ok [], (sp1, [])).
Proof. eexists _, _, _. split; [vm_compute; reflexivity|]. split; vm_compute; reflexivity. Qed.




(** ** Where the buffer is cut *)

Lemma find_index_Some {A} (p : A -> bool) (l : list A) (i : nat) :
  find_index p l = Some i ->
  exists x, l !! i = Some x /\ p x = true /\
            forall j y, (j < i)%nat -> l !! j = Some y -> p y = false.
Proof.
  revert i. induction l as [|a l IH]; intros i; simpl; [discriminate|].
  destruct (p a) eqn:Hp.
  - intros [= <-]. exists a. repeat split; [assumption|]. intros j y Hj. lia.
  - destruct (find_index p l) as [k|]; [|discriminate]. simpl. intros [= <-].
    destruct (IH k eq_refl) as (x & Hx & Hpx & Hbefore).
    exists x. repeat split; try assumption.
    intros [|j] y Hj; simpl.
    + intros [= <-]. assumption.
    + apply Hbefore. lia.
Qed.

Lemma find_index_None {A} (p : A -> bool) (l : list A) :
  find_index p l = None -> forall x, x ∈ l -> p x = false.
Proof.
  induction l as [|a l IH]; simpl; intros H x Hx.
  - by apply elem_of_nil in Hx.
  - destruct (p a) eqn:Hp; [discriminate|].
    destruct (find_index p l); [discriminate|].
    apply elem_of_cons in Hx as [->|Hx]; [assumption | by apply IH].
Qed.

(** [last_config_pos] is [-1] when no line of the buffer is a config
    header, and otherwise the greatest index of one. *)
Lemma last_config_pos_spec (buf : list string) :
  (last_config_pos buf = -1 /\
     forall x, x ∈ buf -> config_header_pattern x = false) \/
  (exists i x, last_config_pos buf = Z.of_nat i /\
     buf !! i = Some x /\ config_header_pattern x = true /\
     forall j y, (i < j)%nat -> buf !! j = Some y -> config_header_pattern y = false).
Proof.
  unfold last_config_pos.
  destruct (find_index config_header_pattern (reverse buf)) as [k|] eqn:Hk.
  - right. apply find_index_Some in Hk as (x & Hx & Hpx & Hbefore).
    assert (k < length buf)%nat as Hlt.
    { apply lookup_lt_Some in Hx. by rewrite length_reverse in Hx. }
    exists (length buf - S k)%nat, x. repeat split.
    + lia.
    + by rewrite <- reverse_lookup.
    + assumption.
    + intros j y Hj Hy.
      assert (j < length buf)%nat as Hjl by (by apply lookup_lt_Some in Hy).
      apply (Hbefore (length buf - S j)%nat y); [lia|].
      rewrite reverse_lookup by lia.
      replace (length buf - S (length buf - S j))%nat with j by lia. assumption.
  - left. split; [reflexivity|]. intros x Hx.
    apply (find_index_None _ _ Hk). by apply elem_of_reverse.
Qed.

Lemma slice_from_neg_positive {A} (k : Z) (l : list A) :
  1 <= k -> Py.slice_from (- k) l = last_lines (Z.to_nat k) l.
Proof.
  intros Hk. unfold Py.slice_from, last_lines.
  destruct (Z.ltb_spec (- k) 0); [|lia]. f_equal. lia.
Qed.

(** With a positive [overlap], an overflow with a config header at [i] and
    none after it flushes the lines [0..i] and keeps the last [overlap]
    lines of them followed by the lines after [i]. *)
Lemma on_overflow_boundary (st : loop) (s : store) (i : nat) (x : string) :
  1 <= overlap s.1 ->
  buffer st !! i = Some x ->
  config_header_pattern x = true ->
  (forall j y, (i < j)%nat -> buffer st !! j = Some y -> config_header_pattern y = false) ->
  on_overflow st s =
    match _flush_buffer (take (S i) (buffer st)) (current_package st) s with
    | (Py.Ok r, s') =>
        let kept := last_lines (Z.to_nat (overlap s.1)) (take (S i) (buffer st))
                    ++ drop (S i) (buffer st) in
        (Py.Ok (mk_loop (current_package st) kept (sum_len kept)
                        (append_task (tasks st) r)), s')
    | (Py.Raise e, s') => (Py.Raise e, s')
    end.
Proof.
  intros Hov Hx Hpx Hlast.
  assert (last_config_pos (buffer st) = Z.of_nat i) as Hpos.
  { destruct (last_config_pos_spec (buffer st)) as [[_ Hnone] | (k & y & Hk & Hy & Hpy & Hafter)].
    - rewrite Hnone in Hpx; [discriminate|]. eapply list_elem_of_lookup_2; eassumption.
    - rewrite Hk. f_equal.
      destruct (Nat.lt_trichotomy i k) as [Hlt|[->|Hgt]]; [|reflexivity|].
      + rewrite (Hlast k y Hlt Hy) in Hpy. discriminate.
      + rewrite (Hafter i x Hgt Hx) in Hpx. discriminate. }
  unfold on_overflow, Py.bind. simpl. rewrite Hpos.
  case_decide; [|lia].
  unfold Py.slice_to. replace (Z.to_nat (Z.of_nat i + 1)) with (S i) by lia.
  destruct (_flush_buffer (take (S i) (buffer st)) (current_package st) s) as [[r|e] s'];
    [|reflexivity].
  unfold Py.ret. rewrite slice_from_neg_positive by assumption.
  unfold Py.slice_from. destruct (Z.ltb_spec (Z.of_nat i + 1) 0); [lia|].
  replace (Z.to_nat (Z.of_nat i + 1)) with (S i) by lia. reflexivity.
Qed.

(** Without a config header in the buffer the whole buffer is flushed and
    nothing is kept. *)
Lemma on_overflow_forced (st : loop) (s : store) :
  (forall x, x ∈ buffer st -> config_header_pattern x = false) ->
  on_overflow st s =
    match _flush_buffer (buffer st) (current_package st) s with
    | (Py.Ok r, s') =>
        (Py.Ok (mk_loop (current_package st) [] 0 (append_task (tasks st) r)), s')
    | (Py.Raise e, s') => (Py.Raise e, s')
    end.
Proof.
  intros Hnone.
  assert (last_config_pos (buffer st) = -1) as Hpos.
  { destruct (last_config_pos_spec (buffer st)) as [[? _] | (k & y & _ & Hy & Hpy & _)];
      [assumption|].
    rewrite Hnone in Hpy; [discriminate|]. eapply list_elem_of_lookup_2; eassumption. }
  unfold on_overflow, Py.bind. simpl. rewrite Hpos.
  case_decide; [lia|].
  destruct (_flush_buffer (buffer st) (current_package st) s) as [[r|e] s']; reflexivity.
Qed.

(** ** The cut with [overlap = 0] *)

(** C4 at [overlap = 0]: the fourth line overflows the buffer, the prefix
    through the config header is flushed, and the retained buffer is
    [chunk_part1[-0:] + chunk_part2], the whole old buffer, where the last
    zero lines of the prefix followed by the suffix would be the single
    line after the header.  The second and last chunk of the run is
    therefore the whole text instead of the two option lines. *)
Theorem overlap_zero_keeps_whole_prefix :
  buffer_size before_cut + Py.len line_option2 > 40 /\
  last_config_pos (buffer before_cut) = 1 /\
  (exists st' s',
    split_line before_cut line_option2 (__init__ 40 0, []) = (Py.Ok st', s') /\
    Dir.names s'.2 = ["p_part1.txt"] /\
    Dir.read "p_part1.txt" s'.2 = Some (chunk_text "p" (line_package +:+ line_config)) /\
    buffer st' = [line_package; line_config; line_option1; line_option2] /\
    last_lines 0 [line_package; line_config] ++ [line_option1] ++ [line_option2]
      = [line_option1; line_option2]) /\
  (exists tk1 tk2 s',
    split_config four_lines (__init__ 40 0, []) = (Py.Ok [tk1; tk2], s') /\
    buffer_content tk1 = line_package +:+ line_config /\
    buffer_content tk2 = four_lines).
Proof.
  split; [reflexivity|]. split; [reflexivity|]. split.
  - eexists _, _. split; [vm_compute; reflexivity|].
    repeat split; reflexivity.
  - eexists _, _, _. split; [vm_compute; reflexivity|].
    split; reflexivity.
Qed.

(** ** A section longer than [max_chunk_size] *)


(** ** The annotation of a chunk *)

(** C9: [generate_annotation] returns a string whatever the remote model
    does; unless the model answers with a first choice that has a content,
    the string is the fallback sentence, which is made of the chunk number
    and the package name only. *)
Theorem generate_annotation_never_raises (client : string -> completion)
    (buffer_content current_package : string) (chunk_num : Z) :
  (exists a, generate_annotation client buffer_content current_package chunk_num = Py.Ok a) /\
  ((forall content rest,
      client (annotation_prompt buffer_content current_package chunk_num)
      <> Py.Ok (Some content :: rest)) ->
   generate_annotation client buffer_content current_package chunk_num
   = Py.Ok (fallback_annotation current_package chunk_num)) /\
  fallback_annotation current_package chunk_num
  = "This is the " +:+ Py.str_of_int chunk_num +:+ "th chunk file of the "
    +:+ current_package +:+ " package.".
Proof.
  unfold generate_annotation.
  destruct (client (annotation_prompt buffer_content current_package chunk_num))
    as [[|[content|] rest]|e] eqn:Hc; simpl.
  - split; [eexists; reflexivity|]. split; reflexivity.
  - split; [eexists; reflexivity|]. split; [|reflexivity].
    intros Hfail. by destruct (Hfail content rest).
  - split; [eexists; reflexivity|]. split; reflexivity.
  - split; [eexists; reflexivity|]. split; reflexivity.
Qed.

(** C9 on a model that times out. *)
Lemma generate_annotation_never_raises_witness :
  generate_annotation unreachable_model system_text "system" 1
  = Py.Ok "This is the 1th chunk file of the system package.".
Proof.
  apply (generate_annotation_never_raises unreachable_model system_text "system" 1).
  intros content rest. discriminate.
Defined.

End SplitterFacts.

(* ===================================================================== *)
(** * Properties of synchronisation, persistence and retrieval *)
(* ===================================================================== *)

Module ConfigFacts.
Import Config ConfigSpec.

(** ** Round trip of the mapping document *)

Lemma int_of_str_of_int (z : Z) : Py.int_of_str (Py.str_of_int z) = Some z.
Proof.
  unfold Py.int_of_str, Py.str_of_int.
  rewrite NilZero.isi.
  - simpl. f_equal. apply DecimalZ.of_to.
  - destruct z as [|p|p]; simpl; [discriminate | | discriminate].
    intros [= H]. by apply DecimalPos.Unsigned.to_uint_nonnil in H.
  - destruct z as [|p|p]; simpl; [discriminate | discriminate |].
    intros [= H]. by apply DecimalPos.Unsigned.to_uint_nonnil in H.
Qed.

Lemma convert_file_to_id (l : list (string * Z)) :
  convert_items file_to_id_item ((fun kv => (kv.1, Json.Int kv.2)) <$> l) = Py.Ok l.
Proof.
  induction l as [|[k v] l IH]; [reflexivity|].
  rewrite fmap_cons. simpl. simpl in IH. by rewrite IH.
Qed.

Lemma convert_id_to_file (l : list (Z * string)) :
  convert_items id_to_file_item ((fun kv => (Py.str_of_int kv.1, Json.Str kv.2)) <$> l)
  = Py.Ok l.
Proof.
  induction l as [|[k v] l IH]; [reflexivity|].
  rewrite fmap_cons. simpl. unfold id_to_file_item at 1. simpl.
  rewrite int_of_str_of_int. simpl in IH. by rewrite IH.
Qed.

(** The comprehension over the items of a [dict] gives the [dict] back. *)
Lemma dict_of_items `{Countable K} {V} (m : gmap K V) :
  list_to_map (reverse (map_to_list m)) = m.
Proof.
  rewrite <- (list_to_map_to_list m) at 2.
  apply list_to_map_proper.
  - rewrite fmap_reverse, reverse_Permutation. apply NoDup_fst_map_to_list.
  - apply reverse_Permutation.
Qed.

Lemma parse_mappings_document (f2i : gmap string Z) (i2f : gmap Z string) :
  parse_mappings (mappings_document f2i i2f) = Py.Ok (f2i, i2f).
Proof.
  unfold parse_mappings, mappings_document. simpl.
  rewrite convert_file_to_id, convert_id_to_file.
  by rewrite !dict_of_items.
Qed.

(** C10: when [save_mappings] writes the file, it returns normally and
    [load_mappings], run in any process that sees this file — whatever its
    own two dictionaries hold at that moment — sets them to the two
    dictionaries that were saved. *)
Theorem save_then_load_mappings (w w0 : world) :
  disk_faults w = O ->
  mappings_file w0 = mappings_file (save_mappings w).2 ->
  (save_mappings w).1 = Py.Ok tt /\
  exists w2,
    load_mappings w0 = (Py.Ok tt, w2) /\
    file_path_to_vector_id w2 = file_path_to_vector_id w /\
    vector_id_to_file_path w2 = vector_id_to_file_path w.
Proof.
  intros Hdisk.
  unfold save_mappings, Py.bind, disk_write. rewrite Hdisk. simpl.
  intros Hfile. split; [reflexivity|].
  unfold load_mappings, Py.bind. simpl. rewrite Hfile.
  rewrite parse_mappings_document. simpl.
  eexists. split; [reflexivity|]. simpl. split; reflexivity.
Qed.

(** C10 on the sample table, loaded by a process that starts with empty
    dictionaries. *)
Lemma save_then_load_mappings_witness :
  exists w2,
    load_mappings (set_mappings ∅ ∅ (save_mappings sample_world).2) = (Py.Ok tt, w2) /\
    file_path_to_vector_id w2 = file_path_to_vector_id sample_world /\
    vector_id_to_file_path w2 = vector_id_to_file_path sample_world.
Proof.
  apply (save_then_load_mappings sample_world
           (set_mappings ∅ ∅ (save_mappings sample_world).2)); reflexivity.
Defined.

(** ** Retrieval *)

Lemma retrieve_one_resolves (acc : list string) (vector_id : Z) (w : world) :
  exists ms,
    retrieve_one acc vector_id w
    = (Py.Ok (acc ++ option_list (resolve w vector_id)), set_messages ms w).
Proof.
  unfold retrieve_one, resolve, Py.bind, Py.get, collect_print. simpl.
  destruct (vector_id_to_file_path w !! vector_id) as [[|c path]|] eqn:Hid; simpl.
  - rewrite app_nil_r. eexists. reflexivity.
  - unfold Py.try_except, Py.bind, read_text. simpl.
    change (lookup_path (String c path) (set_messages _ w))
      with (lookup_path (String c path) w).
    destruct (lookup_path (String c path) w) as [content|]; simpl.
    + eexists. reflexivity.
    + rewrite app_nil_r. eexists. reflexivity.
  - rewrite app_nil_r. eexists. reflexivity.
Qed.

Lemma retrieve_loop_resolves (indices : list Z) :
  forall (acc : list string) (w : world),
  exists ms,
    Py.for_each retrieve_one indices acc w
    = (Py.Ok (acc ++ omap (resolve w) indices), set_messages ms w).
Proof.
  induction indices as [|i indices IH]; intros acc w; simpl.
  - rewrite app_nil_r. exists (messages w). by destruct w.
  - destruct (retrieve_one_resolves acc i w) as (ms1 & H1).
    unfold Py.bind at 1. rewrite H1.
    destruct (IH (acc ++ option_list (resolve w i)) (set_messages ms1 w)) as (ms2 & H2).
    rewrite H2. exists ms2. f_equal. f_equal.
    change (resolve (set_messages ms1 w)) with (resolve w).
    rewrite <- app_assoc. f_equal. by destruct (resolve w i).
Qed.

Lemma nothing_resolves (w : world) (indices : list Z) :
  (forall i, i ∈ indices ->
      vector_id_to_file_path w !! i = None \/
      exists path, vector_id_to_file_path w !! i = Some path /\ lookup_path path w = None) ->
  omap (resolve w) indices = [].
Proof.
  induction indices as [|i indices IH]; intros Hnone; [reflexivity|].
  simpl. assert (resolve w i = None) as ->.
  { unfold resolve.
    destruct (Hnone i) as [->|(path & -> & Hp)]; [by left | reflexivity |].
    destruct path; [reflexivity | exact Hp]. }
  apply IH. intros j Hj. apply Hnone. by right.
Qed.

(** C8: the result of [retrieve_relevant_chunks] is the texts of the ids
    that resolve, in the order of the ids and joined by blank lines; the
    call returns normally whatever the ids are, an id without entry or
    with a missing file contributing nothing.  When no id resolves the
    result is the empty string. *)
Theorem retrieval_skips_unresolved (w : world) (indices : list Z) :
  (exists w',
     retrieve_relevant_chunks indices w
     = (Py.Ok (Py.join blank_line (omap (resolve w) indices)), w')) /\
  ((forall i, i ∈ indices ->
      vector_id_to_file_path w !! i = None \/
      exists path, vector_id_to_file_path w !! i = Some path /\ lookup_path path w = None) ->
   exists w', retrieve_relevant_chunks indices w = (Py.Ok EmptyString, w')).
Proof.
  assert (exists w',
     retrieve_relevant_chunks indices w
     = (Py.Ok (Py.join blank_line (omap (resolve w) indices)), w')) as Hrun.
  { unfold retrieve_relevant_chunks.
    destruct (retrieve_loop_resolves indices [] w) as (ms & Hloop).
    unfold Py.bind at 1. rewrite Hloop. simpl. eexists. reflexivity. }
  split; [exact Hrun|].
  intros Hnone. destruct Hrun as (w' & Hrun). exists w'. rewrite Hrun.
  by rewrite nothing_resolves.
Qed.

(** C8 on three ids: the file of the first is missing, the other two have
    no entry. *)
Lemma retrieval_skips_unresolved_witness :
  exists w',
    retrieve_relevant_chunks [0; 7; -1] sample_world = (Py.Ok EmptyString, w').
Proof.
  apply (retrieval_skips_unresolved sample_world [0; 7; -1]).
  intros i Hi.
  apply elem_of_cons in Hi as [->|Hi]; [right; eexists; split; reflexivity|].
  apply elem_of_cons in Hi as [->|Hi]; [left; reflexivity|].
  apply elem_of_cons in Hi as [->|Hi]; [left; reflexivity|].
  by apply elem_of_nil in Hi.
Defined.

(** ** What a computation raises and what it leaves on disk *)

Lemma raises_only_ret {S A} (P : Py.exn -> Prop) (a : A) : raises_only P (@Py.ret S A a).
Proof. intros s e s'. discriminate. Qed.

Lemma raises_only_bind {S A B} (P : Py.exn -> Prop) (m : Py.M S A) (k : A -> Py.M S B) :
  raises_only P m -> (forall a, raises_only P (k a)) -> raises_only P (Py.bind m k).
Proof.
  intros Hm Hk s e s'. unfold Py.bind.
  destruct (m s) as [[a|e1] s1] eqn:Hms.
  - apply Hk.
  - intros [= <- <-]. eapply Hm. eassumption.
Qed.

Lemma raises_only_for_each {S A X} (P : Py.exn -> Prop) (body : A -> X -> Py.M S A)
    (l : list X) :
  (forall a x, raises_only P (body a x)) -> forall a, raises_only P (Py.for_each body l a).
Proof.
  intros Hbody. induction l as [|x l IH]; intros a; simpl.
  - apply raises_only_ret.
  - apply raises_only_bind; [apply Hbody | apply IH].
Qed.

Lemma raises_only_weaken {S A} (P Q : Py.exn -> Prop) (m : Py.M S A) :
  (forall e, P e -> Q e) -> raises_only P m -> raises_only Q m.
Proof. intros HPQ Hm s e s' H. apply HPQ. eapply Hm. eassumption. Qed.

(** The chunker raises nothing but the [AttributeError] of a flush without
    package. *)
Lemma flush_raises_only (buf : list string) (pkg : option string) :
  raises_only (fun e => e = Py.AttributeError) (UCISplitter._flush_buffer buf pkg).
Proof.
  intros [sp out] e s'. unfold UCISplitter._flush_buffer.
  destruct buf; [discriminate|].
  case_decide; [discriminate|].
  destruct pkg; [discriminate|]. by intros [= <- _].
Qed.

(** Whatever holds of every flush, of reading the object, of [ret], and is
    kept by [bind], holds of [split_config]. *)
Lemma split_config_lift (T : forall A, Py.M UCISplitter.store A -> Prop) :
  (forall A (a : A), T A (Py.ret a)) ->
  T _ (fun s => (Py.Ok s.1, s)) ->
  (forall A B (m : Py.M UCISplitter.store A) (k : A -> Py.M UCISplitter.store B),
     T A m -> (forall a, T B (k a)) -> T B (Py.bind m k)) ->
  (forall buf pkg, T _ (UCISplitter._flush_buffer buf pkg)) ->
  forall text, T _ (UCISplitter.split_config text).
Proof.
  intros Hret Hself Hbind Hflush text.
  assert (forall l st, T _ (Py.for_each UCISplitter.split_line l st)) as Hloop.
  { induction l as [|line l IH]; intros st; simpl; [apply Hret|].
    apply Hbind; [|apply IH].
    unfold UCISplitter.split_line.
    apply Hbind.
    { unfold UCISplitter.on_package.
      destruct (UCISplitter.package_pattern line); [|apply Hret].
      apply Hbind; [|intros; apply Hret].
      destruct (UCISplitter.buffer st); [apply Hret|].
      apply Hbind; [apply Hflush | intros; apply Hret]. }
    intros st1. apply Hbind; [apply Hself|].
    intros self. apply Hbind; [|intros; apply Hret].
    case_decide; [|apply Hret].
    unfold UCISplitter.on_overflow.
    apply Hbind; [apply Hself|].
    intros self'. case_decide.
    + apply Hbind; [apply Hflush | intros; apply Hret].
    + apply Hbind; [apply Hflush | intros; apply Hret]. }
  unfold UCISplitter.split_config.
  apply Hbind; [apply Hloop|].
  intros st. unfold UCISplitter.final_flush.
  destruct (UCISplitter.buffer st); [apply Hret|].
  apply Hbind; [apply Hflush | intros; apply Hret].
Qed.

Lemma split_config_raises_only (text : string) :
  raises_only (fun e => e = Py.AttributeError) (UCISplitter.split_config text).
Proof.
  apply (split_config_lift (fun A m => raises_only (fun e => e = Py.AttributeError) m)).
  - intros A a. apply raises_only_ret.
  - intros s e s'. discriminate.
  - intros A B m k. apply raises_only_bind.
  - apply flush_raises_only.
Qed.

Lemma same_disk_refl (w : world) : same_disk w w.
Proof. by repeat split. Qed.

Lemma same_disk_trans (w1 w2 w3 : world) :
  same_disk w1 w2 -> same_disk w2 w3 -> same_disk w1 w3.
Proof. intros (?&?&?) (?&?&?). repeat split; congruence. Qed.

Lemma off_disk_ret {A} (a : A) : off_disk (Py.ret a).
Proof. split; [intros w; apply same_disk_refl | apply raises_only_ret]. Qed.

Lemma off_disk_get : off_disk Py.get.
Proof. split; [intros w; apply same_disk_refl | intros s e s'; discriminate]. Qed.

Lemma off_disk_bind {A B} (m : Py.M world A) (k : A -> Py.M world B) :
  off_disk m -> (forall a, off_disk (k a)) -> off_disk (Py.bind m k).
Proof.
  intros [Hm Hm'] Hk. split.
  - intros w. unfold Py.bind. specialize (Hm w).
    destruct (m w) as [[a|e] w1]; [|exact Hm].
    eapply same_disk_trans; [exact Hm | apply Hk].
  - apply raises_only_bind; [assumption | intros a; apply Hk].
Qed.

Lemma off_disk_for_each {A X} (body : A -> X -> Py.M world A) (l : list X) :
  (forall a x, off_disk (body a x)) -> forall a, off_disk (Py.for_each body l a).
Proof.
  intros Hbody. induction l as [|x l IH]; intros a; simpl.
  - apply off_disk_ret.
  - apply off_disk_bind; [apply Hbody | apply IH].
Qed.

Lemma off_disk_modify (f : world -> world) :
  (forall w, same_disk w (f w)) -> off_disk (modify f).
Proof. intros Hf. split; [exact Hf | intros s e s'; discriminate]. Qed.

Lemma off_disk_collect_print (m : message) : off_disk (collect_print m).
Proof. split; [intros w; by repeat split | intros s e s'; discriminate]. Qed.

Lemma off_disk_unlink (name : string) : off_disk (unlink name).
Proof.
  split.
  - intros w. unfold unlink. destruct (Dir.exists_ name (uci_configs w)); by repeat split.
  - intros w e w'. unfold unlink.
    destruct (Dir.exists_ name (uci_configs w)); [discriminate|]. by intros [= <- _].
Qed.

Lemma off_disk_read_text (path : string) : off_disk (read_text path).
Proof.
  split.
  - intros w. unfold read_text. destruct (lookup_path path w); by repeat split.
  - intros w e w'. unfold read_text.
    destruct (lookup_path path w); [discriminate|]. by intros [= <- _].
Qed.

Lemma off_disk_register (path content : string) : off_disk (register path content).
Proof. apply off_disk_modify. intros w. by repeat split. Qed.

Lemma off_disk_run_splitter {A} (m : Py.M UCISplitter.store A) :
  raises_only (fun e => e = Py.AttributeError) m -> off_disk (run_splitter m).
Proof.
  intros Hm. split.
  - intros w. unfold run_splitter.
    destruct (m (splitter w, uci_configs w)) as [r [sp out]]. by repeat split.
  - intros w e w'. unfold run_splitter.
    destruct (m (splitter w, uci_configs w)) as [r [sp out]] eqn:Hr.
    intros [= -> _]. by rewrite (Hm _ _ _ Hr).
Qed.

Create HintDb off_disk.

#[local] Hint Resolve off_disk_ret off_disk_get off_disk_collect_print off_disk_unlink
  off_disk_read_text off_disk_register : off_disk.

(** The part of [sync_modified_config] before the two writes. *)
Lemma off_disk_delete_old_vectors (files : list string) : off_disk (delete_old_vectors files).
Proof.
  unfold delete_old_vectors. apply off_disk_bind; [auto with off_disk|]. intros w.
  destruct (delete_vector_ids files w); [auto with off_disk|].
  apply off_disk_bind; [|auto with off_disk].
  apply off_disk_modify. intros w1. by repeat split.
Qed.

Lemma off_disk_delete_old_files (files : list string) : off_disk (delete_old_files files).
Proof.
  apply off_disk_for_each. intros [] name.
  apply off_disk_bind; auto with off_disk.
Qed.

Lemma off_disk_regenerate (r : router) (updated : list string) (package : string) :
  off_disk (regenerate r updated package).
Proof.
  unfold regenerate. destruct (export r package); [auto with off_disk|].
  apply off_disk_bind; [auto with off_disk | intros _].
  apply off_disk_bind; [apply off_disk_modify; intros w; by repeat split | intros _].
  apply off_disk_bind; [apply off_disk_run_splitter, split_config_raises_only | intros _].
  apply off_disk_bind; [auto with off_disk | intros _].
  apply off_disk_bind; [auto with off_disk | intros w].
  apply off_disk_bind; auto with off_disk.
Qed.

Lemma off_disk_add_chunk (name : string) : off_disk (add_chunk name).
Proof. unfold add_chunk. apply off_disk_bind; auto with off_disk. Qed.

Lemma fails_on_fault_write_index : fails_on_fault write_index.
Proof.
  intros w Hw. unfold write_index, disk_write.
  destruct (disk_faults w) as [|n] eqn:Hn; [lia|].
  eexists _, _. split; [reflexivity|]. simpl. repeat split. by left.
Qed.

Lemma fails_on_fault_bind_l {A B} (m : Py.M world A) (k : A -> Py.M world B) :
  fails_on_fault m -> fails_on_fault (Py.bind m k).
Proof.
  intros Hm w Hw. destruct (Hm w Hw) as (e & w' & Hrun & Hrest).
  exists e, w'. unfold Py.bind. by rewrite Hrun.
Qed.

Lemma fails_on_fault_bind_r {A B} (m : Py.M world A) (k : A -> Py.M world B) :
  off_disk m -> (forall a, fails_on_fault (k a)) -> fails_on_fault (Py.bind m k).
Proof.
  intros [Hm Hraise] Hk w Hw. unfold Py.bind.
  specialize (Hm w). destruct (m w) as [[a|e] w1] eqn:Hrun; simpl in Hm.
  - destruct Hm as (Hi & Hmf & Hd).
    destruct (Hk a w1) as (e & w' & Hk' & Hi' & Hmf' & Hcount); [lia|].
    exists e, w'. split; [exact Hk'|]. rewrite <- Hi, <- Hmf, <- Hd. tauto.
  - destruct Hm as (Hi & Hmf & Hd).
    exists e, w1. split; [reflexivity|]. repeat split; try assumption.
    right. split; [|assumption]. eapply Hraise. eassumption.
Qed.

Lemma sync_modified_config_fails_on_fault (r : router) (packages : list string) :
  fails_on_fault (sync_modified_config r packages).
Proof.
  unfold sync_modified_config.
  apply fails_on_fault_bind_r; [apply off_disk_get | intros w0].
  apply fails_on_fault_bind_r; [apply off_disk_delete_old_vectors | intros _].
  apply fails_on_fault_bind_r; [apply off_disk_delete_old_files | intros _].
  apply fails_on_fault_bind_r;
    [apply off_disk_for_each; intros; apply off_disk_regenerate | intros updated].
  apply fails_on_fault_bind_r;
    [apply off_disk_for_each; intros; apply off_disk_add_chunk | intros _].
  apply fails_on_fault_bind_l, fails_on_fault_write_index.
Qed.

Lemma incremental_update_fails_on_fault (r : router) (command script relevant : string)
    (packages : list string) :
  fails_on_fault (incremental_update r command script relevant packages).
Proof.
  unfold incremental_update. destruct packages as [|p ps].
  - intros w Hw. exists Py.ValueError, w. split; [reflexivity|].
    repeat split. right. split; [discriminate | reflexivity].
  - apply fails_on_fault_bind_l, sync_modified_config_fails_on_fault.
Qed.


(** ** Scenarios on a router with one package *)

(** Registration keeps the dictionaries inverse when the path is new and
    the id [ntotal] is not in use. *)
Lemma register_fresh (path content : string) (w : world) :
  inverse_tables w ->
  file_path_to_vector_id w !! path = None ->
  vector_id_to_file_path w !! Faiss.ntotal (vector_db w) = None ->
  inverse_tables (register path content w).2.
Proof.
  intros Hinv Hpath Hid p v. simpl.
  destruct (decide (p = path)) as [->|Hp]; destruct (decide (v = Faiss.ntotal (vector_db w))) as [->|Hv].
  - rewrite !lookup_insert_eq. split; reflexivity.
  - rewrite lookup_insert_eq, lookup_insert_ne by done. split.
    + intros [= <-]. contradiction.
    + intros H. apply Hinv in H. congruence.
  - rewrite lookup_insert_eq, lookup_insert_ne by done. split.
    + intros H. apply Hinv in H. congruence.
    + intros [= <-]. contradiction.
  - rewrite !lookup_insert_ne by done. apply Hinv.
Qed.

(** Registration of a path that is already in the table under another id:
    the old id keeps pointing to the path, whose id is now the new one.
    This is what happens to the knowledge unit of a command that is sent
    again, its file name being a digest of the command. *)
Lemma register_known_path (path content : string) (w : world) (old : Z) :
  file_path_to_vector_id w !! path = Some old ->
  vector_id_to_file_path w !! old = Some path ->
  old <> Faiss.ntotal (vector_db w) ->
  file_path_to_vector_id (register path content w).2 !! path
    = Some (Faiss.ntotal (vector_db w)) /\
  vector_id_to_file_path (register path content w).2 !! old = Some path /\
  ~ inverse_tables (register path content w).2.
Proof.
  intros Hpath Hold Hne. simpl.
  assert (<[path := Faiss.ntotal (vector_db w)]> (file_path_to_vector_id w) !! path
          = Some (Faiss.ntotal (vector_db w))) as H1 by apply lookup_insert_eq.
  assert (<[Faiss.ntotal (vector_db w) := path]> (vector_id_to_file_path w) !! old
          = Some path) as H2 by (by rewrite lookup_insert_ne).
  split; [exact H1|]. split; [exact H2|].
  intros Hinv. apply (Hinv path old) in H2. simpl in H2. congruence.
Qed.

(** ** The full synchronisation leaves inverse tables *)

Lemma names_write_distinct (n c : string) (d : Dir.t) :
  distinct_names d -> distinct_names (Dir.write n c d).
Proof.
  unfold distinct_names, Dir.names. induction d as [|[m c'] d IH]; simpl.
  - intros _. apply NoDup_singleton.
  - destruct (String.eqb_spec m n) as [->|Hne]; simpl; [done|].
    rewrite !NoDup_cons. intros [Hm Hd]. split; [|by apply IH].
    intros Hin. apply (SplitterFacts.names_write n c d m) in Hin as [?|?]; [congruence | done].
Qed.

Lemma split_config_distinct_names (text : string) (s : UCISplitter.store) :
  distinct_names s.2 -> distinct_names (UCISplitter.split_config text s).2.2.
Proof.
  revert s.
  apply (split_config_lift
           (fun A m => forall s, distinct_names s.2 -> distinct_names (m s).2.2)).
  - intros A a s Hs. exact Hs.
  - intros s Hs. exact Hs.
  - intros A B m k Hm Hk s Hs. unfold Py.bind.
    specialize (Hm s Hs). destruct (m s) as [[a|e] s1]; [by apply Hk | exact Hm].
  - intros buf pkg [sp out] Hs. unfold UCISplitter._flush_buffer.
    destruct buf; [exact Hs|]. case_decide; [exact Hs|].
    destruct pkg; [|exact Hs]. simpl. by apply names_write_distinct.
Qed.

Lemma config_path_inj (a b : string) : config_path a = config_path b -> a = b.
Proof. unfold config_path. apply (inj (String.app _)). Qed.

Lemma well_numbered_same (w w' : world) :
  file_path_to_vector_id w' = file_path_to_vector_id w ->
  vector_id_to_file_path w' = vector_id_to_file_path w ->
  vector_db w' = vector_db w ->
  well_numbered w -> well_numbered w'.
Proof.
  intros Hf Hi Hv [Hinv Hbelow]. split.
  - intros p v. rewrite Hf, Hi. apply Hinv.
  - intros v p. rewrite Hi, Hv. apply Hbelow.
Qed.

Lemma register_well_numbered (path content : string) (w : world) :
  well_numbered w ->
  file_path_to_vector_id w !! path = None ->
  well_numbered (register path content w).2.
Proof.
  intros [Hinv Hbelow] Hpath.
  assert (vector_id_to_file_path w !! Faiss.ntotal (vector_db w) = None) as Hfree.
  { destruct (vector_id_to_file_path w !! Faiss.ntotal (vector_db w)) as [p|] eqn:Hp;
      [|reflexivity].
    apply Hbelow in Hp. lia. }
  split; [by apply register_fresh|].
  intros v p. simpl. destruct (decide (v = Faiss.ntotal (vector_db w))) as [->|Hv].
  - intros _. lia.
  - rewrite lookup_insert_ne by done. intros Hp. apply Hbelow in Hp. lia.
Qed.

(** The loop over distinct chunk files none of which is in the table. *)
Lemma add_chunks_well_numbered (names : list string) :
  NoDup names ->
  forall w,
    well_numbered w ->
    (forall n, n ∈ names -> file_path_to_vector_id w !! config_path n = None) ->
    well_numbered (Py.for_each add_unless_knowledge names tt w).2.
Proof.
  induction names as [|name names IH]; intros Hnd w Hw Hnew; simpl; [exact Hw|].
  apply NoDup_cons in Hnd as [Hname Hnd].
  unfold Py.bind, add_unless_knowledge at 1.
  destruct (Py.startswith "knowledge_" name).
  - simpl. apply IH; [assumption | assumption |]. intros n Hn. apply Hnew. by right.
  - unfold add_chunk, Py.bind, read_text.
    destruct (lookup_path (config_path name) w) as [content|]; [|exact Hw].
    destruct (register (config_path name) content w) as [[[]|e] w1] eqn:Hreg;
      [|discriminate].
    assert (w1 = (register (config_path name) content w).2) as -> by (by rewrite Hreg).
    apply IH; [assumption | | ].
    + apply register_well_numbered; [assumption|]. apply Hnew. by left.
    + intros n Hn. simpl. rewrite lookup_insert_ne.
      * apply Hnew. by right.
      * intros Heq. apply config_path_inj in Heq. congruence.
Qed.

(** The two writes and the last message keep the tables. *)
Lemma persist_keeps_tables (w : world) :
  let w' := (Py.bind write_index
               (fun _ => Py.bind save_mappings
                  (fun _ => collect_print VectorDbInitialised)) w).2 in
  file_path_to_vector_id w' = file_path_to_vector_id w /\
  vector_id_to_file_path w' = vector_id_to_file_path w.
Proof.
  unfold write_index, save_mappings, disk_write, Py.bind.
  destruct (disk_faults w) eqn:Hfaults; simpl; [|split; reflexivity].
  rewrite Hfaults. simpl. split; reflexivity.
Qed.



(** C1 on two successive requests that modify the same package.  After
    the first the tables are inverse.  In the second, [remove_ids] lowers
    [ntotal] from 2 to 1, the regenerated chunk is given the id 1 of the
    knowledge unit of the first request, and the tables end up with three
    paths for two ids: the path of that knowledge unit maps to 1, and 1
    maps to the chunk. *)
Theorem tables_not_inverse_after_second_request :
  (exists resp, first_request.1 = Py.Ok resp) /\
  file_path_to_vector_id first_request.2 = {[ system_chunk := 0; knowledge_alpha := 1 ]} /\
  vector_id_to_file_path first_request.2 = {[ 0 := system_chunk; 1 := knowledge_alpha ]} /\
  (exists resp, second_request.1 = Py.Ok resp) /\
  file_path_to_vector_id second_request.2
  = {[ system_chunk := 1; knowledge_alpha := 1; knowledge_beta := 2 ]} /\
  vector_id_to_file_path second_request.2 = {[ 1 := system_chunk; 2 := knowledge_beta ]} /\
  ~ inverse_tables second_request.2.
Proof.
  split; [eexists; vm_compute; reflexivity|].
  split; [vm_compute; reflexivity|].
  split; [vm_compute; reflexivity|].
  split; [eexists; vm_compute; reflexivity|].
  assert (file_path_to_vector_id second_request.2
          = {[ system_chunk := 1; knowledge_alpha := 1; knowledge_beta := 2 ]}) as Hf
    by (vm_compute; reflexivity).
  assert (vector_id_to_file_path second_request.2
          = {[ 1 := system_chunk; 2 := knowledge_beta ]}) as Hi
    by (vm_compute; reflexivity).
  split; [exact Hf|]. split; [exact Hi|].
  intros Hinv. specialize (Hinv knowledge_alpha 1).
  rewrite Hf, Hi in Hinv.
  assert (({[ 1 := system_chunk; 2 := knowledge_beta ]} : gmap Z string) !! 1
          = Some knowledge_alpha) as Hbad
    by (apply Hinv; vm_compute; reflexivity).
  vm_compute in Hbad. discriminate.
Qed.

(** C2 on that history.  The four insertions record the ids 0, 0, 1, 1:
    the fourth vector ever added gets the id 1 and not 3, the ids do not
    increase, and 1 is at that moment an id of [vector_id_to_file_path],
    that of the knowledge unit; the index ends with two vectors numbered
    1. *)
Theorem vector_id_reused_after_remove_ids :
  file_path_to_vector_id after_full_sync !! system_chunk = Some 0 /\
  file_path_to_vector_id after_first_update !! system_chunk = Some 0 /\
  file_path_to_vector_id after_knowledge !! knowledge_alpha = Some 1 /\
  Faiss.ntotal (vector_db after_knowledge) = 2 /\
  vector_id_to_file_path after_knowledge !! 1 = Some knowledge_alpha /\
  (sync_modified_config (router_named "beta") ["system"] after_knowledge).1
  = Py.Ok ["system_part1.txt"] /\
  file_path_to_vector_id after_second_update !! system_chunk = Some 1 /\
  vector_id_to_file_path after_second_update !! 1 = Some system_chunk /\
  (Faiss.vectors (vector_db after_second_update)).*1 = [1; 1].
Proof. repeat split; vm_compute; reflexivity. Qed.

(** C3 on a package that fits in one chunk.  The first run writes
    [system_part1.txt] and registers it.  The second run, on the same
    text, deletes the file and its vector; the chunker then finds the
    digest of its buffer equal to [last_buffer_hash], which the first run
    left in the splitter, and writes nothing.  One chunk file and one
    table entry before, none after. *)
Theorem replayed_sync_loses_the_chunk :
  (sync_modified_config (router_named "alpha") ["system"] after_full_sync).1
  = Py.Ok ["system_part1.txt"] /\
  chunk_files after_first_update = ["system_part1.txt"] /\
  size (file_path_to_vector_id after_first_update) = 1%nat /\
  size (vector_id_to_file_path after_first_update) = 1%nat /\
  length (Faiss.vectors (vector_db after_first_update)) = 1%nat /\
  (sync_modified_config (router_named "alpha") ["system"] after_first_update).1
  = Py.Ok [] /\
  chunk_files after_replay = [] /\
  size (file_path_to_vector_id after_replay) = 0%nat /\
  size (vector_id_to_file_path after_replay) = 0%nat /\
  length (Faiss.vectors (vector_db after_replay)) = 0%nat.
Proof. repeat split; vm_compute; reflexivity. Qed.

(** ** A write that fails once *)



End ConfigFacts.

(* ===================================================================== *)
(** * Properties of the script functions of [config.py] *)
(* ===================================================================== *)

Module ScriptFacts.
Import Config ScriptSpec.

(** ** Lines *)

Lemma split_lines_nonempty (s : string) : Py.split_lines s <> [].
Proof.
  induction s as [|c s IH]; simpl; [discriminate|].
  destruct (Ascii.eqb c "010"%char); [discriminate|].
  destruct (Py.split_lines s); [contradiction | discriminate].
Qed.

Lemma split_lines_one_line (s : string) : one_line s -> Py.split_lines s = [s].
Proof.
  unfold one_line. induction s as [|c s IH]; simpl; intros H; [reflexivity|].
  apply Forall_cons in H as [Hc Hs].
  destruct (Ascii.eqb_spec c "010"%char) as [->|_]; [contradiction|].
  by rewrite IH.
Qed.

(** The pieces of [a + "\n" + b] are the pieces of [a] followed by the
    pieces of [b]. *)
Lemma split_lines_app (a b : string) :
  Py.split_lines (a +:+ newline +:+ b) = Py.split_lines a ++ Py.split_lines b.
Proof.
  induction a as [|c a IH]; simpl; [reflexivity|].
  destruct (Ascii.eqb c "010"%char); simpl.
  - by rewrite <- IH.
  - simpl in IH. rewrite IH.
    pose proof (split_lines_nonempty a) as Hne.
    destruct (Py.split_lines a); [contradiction | reflexivity].
Qed.

(** [split] undoes [join] on lines without newline. *)
Lemma split_lines_join (ls : list string) :
  ls <> [] -> Forall one_line ls -> Py.split_lines (Py.join newline ls) = ls.
Proof.
  induction ls as [|l ls IH]; intros Hne Hall; [contradiction|].
  apply Forall_cons in Hall as [Hl Hls].
  destruct ls as [|l' ls]; simpl.
  - by apply split_lines_one_line.
  - change (Py.split_lines (l +:+ newline +:+ Py.join newline (l' :: ls)) = l :: l' :: ls).
    rewrite split_lines_app, split_lines_one_line by assumption.
    simpl. f_equal. apply IH; [discriminate | assumption].
Qed.

(** ** [extract_code_block] *)

Lemma scan_outside_block (lines cb : list string) :
  Forall (fun l => opens_code_block l = false) lines ->
  scan_code_block false cb lines = cb.
Proof.
  induction lines as [|l lines IH]; intros H; simpl; [reflexivity|].
  apply Forall_cons in H as [-> H]. simpl. by apply IH.
Qed.

Lemma scan_inside_block (body rest cb : list string) :
  Forall (fun l => closes_code_block l = false) body ->
  block_end rest ->
  scan_code_block true cb (body ++ rest) = cb ++ body.
Proof.
  revert cb. induction body as [|l body IH]; intros cb Hbody Hrest; simpl.
  - rewrite app_nil_r. destruct Hrest as [->|(closer & post & -> & Hc)]; [reflexivity|].
    simpl. rewrite andb_false_r. unfold closes_code_block in Hc. by rewrite Hc.
  - apply Forall_cons in Hbody as [Hl Hbody]. rewrite andb_false_r.
    unfold closes_code_block in Hl. rewrite Hl.
    rewrite IH by assumption. by rewrite <- app_assoc.
Qed.

Lemma scan_fenced (pre body rest : list string) (opener : string) :
  Forall (fun l => opens_code_block l = false) pre ->
  opens_code_block opener = true ->
  Forall (fun l => closes_code_block l = false) body ->
  block_end rest ->
  scan_code_block false [] (pre ++ opener :: body ++ rest) = body.
Proof.
  intros Hpre Hopen Hbody Hrest.
  induction pre as [|l pre IH]; simpl.
  - rewrite Hopen. simpl. by apply (scan_inside_block body rest []).
  - apply Forall_cons in Hpre as [-> Hpre]. simpl. by apply IH.
Qed.

(** A text without a line that starts with [```bash] (or with a blank and
    [```bash]) has no code block: the result is [None]. *)
Theorem extract_code_block_without_fence (text : string) :
  Forall (fun l => opens_code_block l = false) (Py.split_lines text) ->
  extract_code_block text = None.
Proof.
  intros H. unfold extract_code_block. by rewrite scan_outside_block.
Qed.

(** A block closed by [```] instead of opened by [```bash] is not found. *)
Lemma extract_code_block_without_fence_witness :
  extract_code_block (Py.join newline ["```sh"; "uci commit"; "```"]) = None.
Proof.
  apply extract_code_block_without_fence.
  repeat constructor.
Defined.

(** The lines between the first opening line and the next line that starts
    with three backquotes, or the end of the text, come back joined by
    newlines; an empty block gives [None]. *)
Theorem extract_code_block_fenced (pre body rest : list string) (opener : string) :
  Forall one_line (pre ++ opener :: body ++ rest) ->
  Forall (fun l => opens_code_block l = false) pre ->
  opens_code_block opener = true ->
  Forall (fun l => closes_code_block l = false) body ->
  block_end rest ->
  extract_code_block (Py.join newline (pre ++ opener :: body ++ rest))
  = match body with
    | [] => None
    | _ => Some (Py.join newline body)
    end.
Proof.
  intros Hlines Hpre Hopen Hbody Hrest. unfold extract_code_block.
  rewrite split_lines_join; [|by destruct pre | assumption].
  rewrite scan_fenced by assumption. by destruct body.
Qed.

Lemma extract_code_block_fenced_witness :
  extract_code_block (Py.join newline answer_lines)
  = Some (Py.join newline ["uci set system.@system[0].hostname='alpha'"; "uci commit system"]).
Proof.
  apply (extract_code_block_fenced ["Use this script:"]
           ["uci set system.@system[0].hostname='alpha'"; "uci commit system"]
           ["```"; "It renames the router."] "```bash").
  - repeat constructor; discriminate.
  - repeat constructor.
  - reflexivity.
  - repeat constructor.
  - right. by exists "```", ["It renames the router."].
Defined.

Lemma scan_inside_block_inv (lines cb : list string) :
  exists body rest,
    lines = body ++ rest /\
    scan_code_block true cb lines = cb ++ body /\
    Forall (fun l => closes_code_block l = false) body /\
    block_end rest.
Proof.
  revert cb. induction lines as [|l lines IH]; intros cb.
  - exists [], []. split; [reflexivity|]. split; [simpl; by rewrite app_nil_r|].
    split; [constructor | by left].
  - simpl. rewrite andb_false_r.
    destruct (Py.startswith "```" l) eqn:Hl.
    + exists [], (l :: lines). split; [reflexivity|]. split; [by rewrite app_nil_r|].
      split; [constructor|]. right. by exists l, lines.
    + destruct (IH (cb ++ [l])) as (body & rest & -> & Hscan & Hbody & Hrest).
      exists (l :: body), rest. rewrite Hscan, <- app_assoc.
      repeat split; [by constructor | assumption].
Qed.

Lemma scan_outside_block_inv (lines : list string) :
  scan_code_block false [] lines = [] \/
  exists pre opener body rest,
    lines = pre ++ opener :: body ++ rest /\
    scan_code_block false [] lines = body /\
    Forall (fun l => opens_code_block l = false) pre /\
    opens_code_block opener = true /\
    Forall (fun l => closes_code_block l = false) body /\
    block_end rest.
Proof.
  induction lines as [|l lines IH]; [by left|].
  simpl. destruct (opens_code_block l) eqn:Hl; simpl.
  - right. destruct (scan_inside_block_inv lines []) as (body & rest & -> & Hscan & Hbody & Hrest).
    exists [], l, body, rest. repeat split; try assumption. constructor.
  - destruct IH as [IH|(pre & opener & body & rest & -> & Hscan & Hpre & Hopen & Hbody & Hrest)];
      [by left|].
    right. exists (l :: pre), opener, body, rest.
    repeat split; try assumption. by constructor.
Qed.

(** Whenever a script is returned, it is made of the lines that follow the
    first opening line of the text, up to the next line that starts with
    three backquotes or to the end; there is at least one such line and
    none of them starts with three backquotes. *)
Theorem extract_code_block_result (text code : string) :
  extract_code_block text = Some code ->
  exists pre opener body rest,
    Py.split_lines text = pre ++ opener :: body ++ rest /\
    Forall (fun l => opens_code_block l = false) pre /\
    opens_code_block opener = true /\
    body <> [] /\
    Forall (fun l => closes_code_block l = false) body /\
    block_end rest /\
    code = Py.join newline body.
Proof.
  unfold extract_code_block. intros H.
  destruct (scan_outside_block_inv (Py.split_lines text))
    as [Hnone|(pre & opener & body & rest & Hlines & Hscan & Hpre & Hopen & Hbody & Hrest)].
  - rewrite Hnone in H. discriminate.
  - rewrite Hscan in H. exists pre, opener, body, rest.
    destruct body as [|b body]; [discriminate|].
    injection H as <-. repeat split; try assumption. discriminate.
Qed.

Lemma extract_code_block_result_witness :
  exists pre opener body rest,
    Py.split_lines (Py.join newline answer_lines) = pre ++ opener :: body ++ rest /\
    Forall (fun l => opens_code_block l = false) pre /\
    opens_code_block opener = true /\
    body <> [] /\
    Forall (fun l => closes_code_block l = false) body /\
    block_end rest /\
    Py.join newline ["uci set system.@system[0].hostname='alpha'"; "uci commit system"]
    = Py.join newline body.
Proof.
  apply (extract_code_block_result (Py.join newline answer_lines)).
  reflexivity.
Defined.

(** ** Prefixes and substrings *)

Lemma append_cons (c : ascii) (x y : string) : String c x +:+ y = String c (x +:+ y).
Proof. reflexivity. Qed.

Lemma append_empty_r (x : string) : x +:+ EmptyString = x.
Proof. induction x as [|c x IH]; [reflexivity|]. by rewrite append_cons, IH. Qed.

Lemma append_assoc (x y z : string) : (x +:+ y) +:+ z = x +:+ y +:+ z.
Proof. induction x as [|c x IH]; [reflexivity|]. by rewrite !append_cons, IH. Qed.

Lemma prefix_empty (s : string) : String.prefix EmptyString s = true.
Proof. by destruct s. Qed.

Lemma prefix_app (p s t : string) :
  String.prefix p s = true -> String.prefix p (s +:+ t) = true.
Proof.
  revert s. induction p as [|c p IH]; intros s; [intros _; apply prefix_empty|].
  destruct s as [|d s]; simpl; [discriminate|].
  destruct (ascii_dec c d); [apply IH | discriminate].
Qed.

Lemma contains_app_l (n a b : string) :
  Py.contains n a = true -> Py.contains n (a +:+ b) = true.
Proof.
  induction a as [|c a IH]; simpl.
  - rewrite orb_false_r. intros H. destruct n; [|discriminate].
    by destruct b.
  - intros H. apply orb_true_iff in H as [H|H].
    + apply orb_true_iff. left. by apply (prefix_app n (String c a) b).
    + apply orb_true_iff. right. by apply IH.
Qed.

Lemma contains_app_r (n a b : string) :
  Py.contains n b = true -> Py.contains n (a +:+ b) = true.
Proof.
  intros H. induction a as [|c a IH]; simpl; [assumption|].
  apply orb_true_iff. by right.
Qed.

(** ** Blanks *)

Lemma lstrip_blank (s : string) : blank s -> Py.lstrip s = EmptyString.
Proof.
  unfold blank. induction s as [|c s IH]; simpl; intros H; [reflexivity|].
  apply Forall_cons in H as [-> H]. by apply IH.
Qed.

Lemma strip_starts_nonblank (c : ascii) (s : string) :
  Py.is_space c = false -> Py.strip (String c s) <> EmptyString.
Proof.
  intros Hc. unfold Py.strip. simpl Py.lstrip. rewrite Hc. simpl.
  destruct (Py.rstrip s); [by rewrite Hc | discriminate].
Qed.

(** ** [validate_uci_script] *)

(** A script made of blanks is rejected as empty. *)
Theorem validate_blank_script (script : string) :
  blank script -> validate_uci_script script = (false, "Empty script").
Proof.
  intros H. unfold validate_uci_script, Py.strip. by rewrite lstrip_blank.
Qed.

Lemma validate_blank_script_witness :
  validate_uci_script (" " +:+ newline +:+ "	") = (false, "Empty script").
Proof.
  apply validate_blank_script. repeat constructor.
Defined.

Lemma first_dangerous_cons (l : string) (rest : list string) :
  first_dangerous (l :: rest)
  = if Py.startswith "#" l then first_dangerous rest
    else match List.find (fun command => Py.contains command (inspected l))
                         dangerous_commands with
         | Some command => Some command
         | None => first_dangerous rest
         end.
Proof. reflexivity. Qed.

Lemma first_dangerous_app (l1 l2 : list string) :
  first_dangerous (l1 ++ l2)
  = match first_dangerous l1 with
    | Some command => Some command
    | None => first_dangerous l2
    end.
Proof.
  induction l1 as [|l l1 IH]; [reflexivity|].
  rewrite <- app_comm_cons, !first_dangerous_cons.
  destruct (Py.startswith "#" l); [exact IH|].
  destruct (List.find (fun command => Py.contains command (inspected l)) dangerous_commands);
    [reflexivity | exact IH].
Qed.

Lemma first_dangerous_none (lines : list string) :
  first_dangerous lines = None ->
  Forall (fun line => Py.startswith "#" line = false -> harmless (inspected line)) lines.
Proof.
  induction lines as [|l lines IH]; [constructor|].
  rewrite first_dangerous_cons. intros H. constructor.
  - intros Hl. rewrite Hl in H.
    destruct (List.find (fun command => Py.contains command (inspected l)) dangerous_commands)
      eqn:Hfind; [discriminate|].
    apply Forall_forall. intros command Hin.
    apply (List.find_none _ _ Hfind). by apply list_elem_of_In.
  - apply IH. destruct (Py.startswith "#" l); [exact H|].
    by destruct (List.find (fun command => Py.contains command (inspected l))
                           dangerous_commands).
Qed.

(** What acceptance means: the script is not blank, and on every line that
    is not a comment the part before the first [#] and the first double
    quote holds none of the dangerous commands. *)
Theorem validate_accepted_lines (script result : string) :
  validate_uci_script script = (true, result) ->
  ~ blank script /\
  Forall (fun line => Py.startswith "#" line = false -> harmless (inspected line))
         (Py.split_lines script).
Proof.
  unfold validate_uci_script. intros H. split.
  - intros Hblank. unfold Py.strip in H. rewrite lstrip_blank in H by assumption.
    discriminate.
  - destruct (Py.strip script); [discriminate|].
    destruct (first_dangerous (Py.split_lines script)) eqn:Hd; [discriminate|].
    by apply first_dangerous_none.
Qed.

Lemma validate_accepted_lines_witness :
  ~ blank (Py.join newline rename_lines) /\
  Forall (fun line => Py.startswith "#" line = false -> harmless (inspected line))
         (Py.split_lines (Py.join newline rename_lines)).
Proof.
  eapply (validate_accepted_lines (Py.join newline rename_lines)).
  vm_compute. reflexivity.
Defined.

(** The two additions of an accepted script. *)
Lemma validate_accepted_shape (script result : string) :
  validate_uci_script script = (true, result) ->
  Py.startswith "#!/bin/sh" result = true /\
  Py.contains "trap" result = true /\
  exists pre post,
    result = pre +:+ script +:+ post /\
    (pre = EmptyString \/ pre = "#!/bin/sh" +:+ newline) /\
    (post = EmptyString \/ post = newline +:+ trap_line).
Proof.
  unfold validate_uci_script. intros H.
  destruct (Py.strip script); [discriminate|].
  destruct (first_dangerous (Py.split_lines script)); [discriminate|].
  injection H as <-.
  pose proof append_empty_r as Hnil.
  destruct (Py.startswith "#!/bin/sh" script) eqn:Hshebang.
  - destruct (Py.contains "trap" script) eqn:Htrap.
    + split; [assumption|]. split; [assumption|].
      exists EmptyString, EmptyString. rewrite Hnil. split; [reflexivity | tauto].
    + split; [by apply prefix_app|]. split; [by apply contains_app_r|].
      exists EmptyString, (newline +:+ trap_line). split; [reflexivity | tauto].
  - destruct (Py.contains "trap" ("#!/bin/sh" +:+ newline +:+ script)) eqn:Htrap.
    + split; [reflexivity|]. split; [assumption|].
      exists ("#!/bin/sh" +:+ newline), EmptyString. rewrite Hnil.
      split; [by rewrite append_assoc | tauto].
    + split; [reflexivity|]. split; [by apply contains_app_r|].
      exists ("#!/bin/sh" +:+ newline), (newline +:+ trap_line).
      split; [by rewrite !append_assoc | tauto].
Qed.

(** An accepted script comes back between an added first line [#!/bin/sh],
    unless it starts with it, and an added last line with the [trap],
    unless the word occurs in it; the result starts with [#!/bin/sh] and
    contains [trap]. *)
Theorem validate_accepted_result (script result : string) :
  validate_uci_script script = (true, result) ->
  Py.startswith "#!/bin/sh" result = true /\
  Py.contains "trap" result = true /\
  exists pre post,
    result = pre +:+ script +:+ post /\
    (pre = EmptyString \/ pre = "#!/bin/sh" +:+ newline) /\
    (post = EmptyString \/ post = newline +:+ trap_line).
Proof.
  intros H.
  destruct (validate_accepted_shape script result H)
    as (Hstart & Htrap & pre & post & Hresult & Hpre & Hpost).
  split; [exact Hstart|]. split; [exact Htrap|].
  exists pre, post. split; [exact Hresult|]. split; assumption.
Qed.

Lemma validate_accepted_result_witness :
  Py.startswith "#!/bin/sh" ("#!/bin/sh" +:+ newline +:+ "uci commit system" +:+ newline +:+ trap_line)
  = true /\
  Py.contains "trap" ("#!/bin/sh" +:+ newline +:+ "uci commit system" +:+ newline +:+ trap_line)
  = true /\
  exists pre post,
    "#!/bin/sh" +:+ newline +:+ "uci commit system" +:+ newline +:+ trap_line
    = pre +:+ "uci commit system" +:+ post /\
    (pre = EmptyString \/ pre = "#!/bin/sh" +:+ newline) /\
    (post = EmptyString \/ post = newline +:+ trap_line).
Proof.
  apply (validate_accepted_result "uci commit system").
  vm_compute. reflexivity.
Defined.

Lemma starts_with_shebang (s : string) :
  Py.startswith "#!/bin/sh" s = true -> exists rest, s = String "#"%char rest.
Proof.
  destruct s as [|c s]; [discriminate|]. unfold Py.startswith.
  change (String.prefix "#!/bin/sh" (String c s))
    with (if ascii_dec "#"%char c then String.prefix "!/bin/sh" s else false).
  destruct (ascii_dec "#"%char c) as [<-|]; [|discriminate]. by exists s.
Qed.

(** Validation is idempotent: the script it returns is accepted as it is
    when validated again. *)
Theorem validate_accepted_again (script result : string) :
  validate_uci_script script = (true, result) ->
  validate_uci_script result = (true, result).
Proof.
  intros H.
  destruct (validate_accepted_shape _ _ H) as (Hstart & Htrap & pre & post & -> & Hpre & Hpost).
  assert (first_dangerous (Py.split_lines script) = None) as Hsafe.
  { unfold validate_uci_script in H. destruct (Py.strip script); [discriminate|].
    by destruct (first_dangerous (Py.split_lines script)). }
  assert (first_dangerous (Py.split_lines (script +:+ post)) = None) as Hsafe'.
  { destruct Hpost as [->| ->].
    - by rewrite append_empty_r.
    - rewrite split_lines_app, first_dangerous_app, Hsafe. vm_compute. reflexivity. }
  assert (first_dangerous (Py.split_lines (pre +:+ script +:+ post)) = None) as Hsafe''.
  { destruct Hpre as [->| ->]; [exact Hsafe'|].
    rewrite append_assoc, split_lines_app, first_dangerous_app.
    change (first_dangerous (Py.split_lines "#!/bin/sh")) with (@None string).
    exact Hsafe'. }
  unfold validate_uci_script.
  destruct (Py.strip (pre +:+ script +:+ post)) eqn:Hstrip.
  - destruct (starts_with_shebang _ Hstart) as (rest & Hrest).
    rewrite Hrest in Hstrip. by apply strip_starts_nonblank in Hstrip.
  - by rewrite Hsafe'', Hstart, Htrap.
Qed.

Lemma validate_accepted_again_witness :
  validate_uci_script ("#!/bin/sh" +:+ newline +:+ "uci commit system" +:+ newline +:+ trap_line)
  = (true, "#!/bin/sh" +:+ newline +:+ "uci commit system" +:+ newline +:+ trap_line).
Proof.
  apply (validate_accepted_again "uci commit system").
  vm_compute. reflexivity.
Defined.

(** ** What the validation does not look at *)

Lemma contains_char_here (c : ascii) (a b : string) :
  Py.contains (String c EmptyString) (a +:+ String c b) = true.
Proof.
  apply contains_app_r. simpl.
  destruct (ascii_dec c c); [|contradiction]. by rewrite prefix_empty.
Qed.

Lemma before_char_lacks (c : ascii) (s : string) : lacks c s -> Py.before_char c s = s.
Proof.
  unfold lacks. induction s as [|x s IH]; simpl; intros H; [reflexivity|].
  apply Forall_cons in H as [Hx H].
  destruct (Ascii.eqb_spec x c); [contradiction|]. by rewrite IH.
Qed.

Lemma before_char_app (c : ascii) (a b : string) :
  lacks c a -> Py.before_char c (a +:+ b) = a +:+ Py.before_char c b.
Proof.
  unfold lacks. induction a as [|x a IH]; intros H; [reflexivity|].
  apply Forall_cons in H as [Hx H]. rewrite !append_cons. simpl.
  destruct (Ascii.eqb_spec x c); [contradiction|]. by rewrite IH.
Qed.

Lemma before_char_cut (c : ascii) (a b : string) :
  lacks c a -> Py.before_char c (a +:+ String c b) = a.
Proof.
  intros H. rewrite before_char_app by assumption. simpl.
  rewrite Ascii.eqb_refl. apply append_empty_r.
Qed.

(** The inspected part of a line ends at its first [#] or double quote. *)
Lemma inspected_cut (a b : string) (x : ascii) :
  x = "#"%char \/ x = "034"%char ->
  lacks "#"%char a -> lacks "034"%char a ->
  inspected (a +:+ String x b) = a.
Proof.
  intros Hx Hhash Hquote. unfold inspected, dquote.
  destruct Hx as [->| ->].
  - rewrite contains_char_here, before_char_cut by assumption.
    destruct (Py.contains _ a); [by apply before_char_lacks | reflexivity].
  - assert (exists b', (if Py.contains "#" (a +:+ String "034"%char b)
                        then Py.before_char "#"%char (a +:+ String "034"%char b)
                        else a +:+ String "034"%char b) = a +:+ String "034"%char b')
      as [b' ->].
    { destruct (Py.contains "#" (a +:+ String "034"%char b)); [|by exists b].
      rewrite before_char_app by assumption. simpl. eauto. }
    by rewrite contains_char_here, before_char_cut.
Qed.

Lemma rstrip_empty_blank (s : string) : Py.rstrip s = EmptyString -> blank s.
Proof.
  unfold blank. induction s as [|c s IH]; simpl; intros H; [constructor|].
  destruct (Py.rstrip s); [|discriminate].
  destruct (Py.is_space c) eqn:Hc; [|discriminate].
  constructor; [assumption | by apply IH].
Qed.

Lemma lstrip_blank_inv (s : string) : blank (Py.lstrip s) -> blank s.
Proof.
  unfold blank. induction s as [|c s IH]; simpl; intros H; [constructor|].
  destruct (Py.is_space c) eqn:Hc; [|exact H].
  constructor; [assumption | by apply IH].
Qed.

Lemma strip_empty_blank (s : string) : Py.strip s = EmptyString -> blank s.
Proof. intros H. by apply lstrip_blank_inv, rstrip_empty_blank. Qed.

Lemma list_ascii_app (a b : string) :
  list_ascii_of_string (a +:+ b) = list_ascii_of_string a ++ list_ascii_of_string b.
Proof.
  induction a as [|c a IH]; [reflexivity|]. rewrite append_cons. simpl. by rewrite IH.
Qed.

Lemma starts_with_hash_app (a b : string) (x : ascii) :
  Py.startswith "#" (a +:+ String x b) = Py.startswith "#" (a +:+ String x EmptyString).
Proof.
  unfold Py.startswith. destruct a as [|c a].
  - change (String.prefix "#" (String x b) = String.prefix "#" (String x EmptyString)).
    change (String.prefix "#" (String x b))
      with (if ascii_dec "#"%char x then String.prefix EmptyString b else false).
    change (String.prefix "#" (String x EmptyString))
      with (if ascii_dec "#"%char x then String.prefix EmptyString EmptyString else false).
    destruct (ascii_dec "#"%char x); [by rewrite prefix_empty | reflexivity].
  - rewrite !append_cons.
    change (String.prefix "#" (String c (a +:+ String x b)))
      with (if ascii_dec "#"%char c then String.prefix EmptyString (a +:+ String x b) else false).
    change (String.prefix "#" (String c (a +:+ String x EmptyString)))
      with (if ascii_dec "#"%char c
            then String.prefix EmptyString (a +:+ String x EmptyString) else false).
    destruct (ascii_dec "#"%char c); [by rewrite !prefix_empty | reflexivity].
Qed.

(** On a one-line script, what follows the first [#] or the first double
    quote has no influence on the verdict: two scripts that agree up to
    that character are both accepted or both rejected. *)
Theorem validate_ignores_rest_of_line (a b b' : string) (x : ascii) :
  x = "#"%char \/ x = "034"%char ->
  lacks "#"%char a -> lacks "034"%char a ->
  one_line a -> one_line b -> one_line b' ->
  (validate_uci_script (a +:+ String x b)).1 = (validate_uci_script (a +:+ String x b')).1.
Proof.
  intros Hx Hhash Hquote Ha Hb Hb'.
  assert (forall c, one_line c ->
            (validate_uci_script (a +:+ String x c)).1
            = match (if Py.startswith "#" (a +:+ String x EmptyString) then None
                     else List.find (fun command => Py.contains command a) dangerous_commands)
              with Some _ => false | None => true end) as Hverdict.
  { intros c Hc. unfold validate_uci_script.
    destruct (Py.strip (a +:+ String x c)) eqn:Hstrip.
    { apply strip_empty_blank in Hstrip. unfold blank in Hstrip.
      rewrite list_ascii_app in Hstrip. apply Forall_app in Hstrip as [_ Hstrip].
      apply Forall_cons in Hstrip as [Hspace _].
      destruct Hx as [->| ->]; discriminate. }
    rewrite split_lines_one_line.
    2:{ unfold one_line in *. rewrite list_ascii_app. apply Forall_app. split; [assumption|].
        constructor; [|assumption]. destruct Hx as [->| ->]; discriminate. }
    rewrite first_dangerous_cons, starts_with_hash_app.
    destruct (Py.startswith "#" (a +:+ String x EmptyString)); [reflexivity|].
    rewrite inspected_cut by assumption.
    by destruct (List.find (fun command => Py.contains command a) dangerous_commands). }
  by rewrite !Hverdict.
Qed.

Lemma validate_ignores_rest_of_line_witness :
  (validate_uci_script ("echo " +:+ String "034"%char "done")).1
  = (validate_uci_script ("echo " +:+ String "034"%char "; rm -rf /overlay")).1.
Proof.
  apply (validate_ignores_rest_of_line "echo " "done" "; rm -rf /overlay" "034"%char).
  - by right.
  - repeat constructor; discriminate.
  - repeat constructor; discriminate.
  - repeat constructor; discriminate.
  - repeat constructor; discriminate.
  - repeat constructor; discriminate.
Defined.

(** ** [get_modified_packages] *)

Lemma before_char_free (c : ascii) (s : string) : lacks c (Py.before_char c s).
Proof.
  unfold lacks. induction s as [|x s IH]; simpl; [constructor|].
  destruct (Ascii.eqb_spec x c); [constructor|]. by constructor.
Qed.

Lemma replace_dot_lacks (s : string) : lacks "."%char s -> Py.replace_dot s = s.
Proof.
  unfold lacks. induction s as [|x s IH]; simpl; intros H; [reflexivity|].
  apply Forall_cons in H as [Hx H].
  destruct (Ascii.eqb_spec x "."%char); [contradiction|]. by rewrite IH.
Qed.

Lemma uci_command_at_free (s package : string) :
  uci_command_at s = Some package -> lacks "."%char package.
Proof.
  unfold uci_command_at. destruct (Py.startswith "uci " s); [|discriminate].
  destruct (List.find _ _) as [verb|]; [|discriminate].
  destruct (dot_after_first _); [|discriminate].
  intros [= <-]. apply before_char_free.
Qed.

Lemma search_uci_command_free (line package : string) :
  search_uci_command line = Some package -> lacks "."%char package.
Proof.
  induction line as [|c line IH]; [discriminate|].
  change (search_uci_command (String c line))
    with (match uci_command_at (String c line) with
          | Some package => Some package
          | None => search_uci_command line
          end).
  destruct (uci_command_at (String c line)) eqn:H; [|exact IH].
  intros [= <-]. by apply uci_command_at_free in H.
Qed.

(** The packages returned are at least one, distinct, and without dot, so
    that [package.replace('.', '_')] leaves each of them as it is: the
    prefix of the chunk files that [sync_modified_config] looks for is the
    package name itself. *)
Theorem get_modified_packages_names (script : string) (packages : list string) :
  get_modified_packages script = Py.Ok packages ->
  packages <> [] /\ NoDup packages /\
  Forall (fun package => lacks "."%char package /\ Py.replace_dot package = package) packages.
Proof.
  unfold get_modified_packages.
  assert (forall lines acc,
            NoDup acc -> Forall (lacks "."%char) acc ->
            let r := foldl (fun packages line =>
                              match search_uci_command line with
                              | Some package => set_add package packages
                              | None => packages
                              end) acc lines in
            NoDup r /\ Forall (lacks "."%char) r) as Hfold.
  { induction lines as [|l lines IH]; intros acc Hnd Hfree; simpl; [by split|].
    apply IH.
    - destruct (search_uci_command l) as [package|]; [|assumption].
      unfold set_add. case_decide; [assumption|].
      apply NoDup_app. split; [assumption|]. split; [|apply NoDup_singleton].
      intros x Hx Hx'. apply list_elem_of_singleton in Hx'. by subst.
    - destruct (search_uci_command l) as [package|] eqn:Hl; [|assumption].
      unfold set_add. case_decide; [assumption|].
      apply Forall_app. split; [assumption|]. constructor; [|constructor].
      by apply search_uci_command_free in Hl. }
  destruct (Hfold (Py.split_lines script) [] (NoDup_nil_2) (Forall_nil_2 _)) as [Hnd Hfree].
  simpl in Hnd, Hfree.
  destruct (foldl _ [] (Py.split_lines script)) as [|p ps]; [discriminate|].
  intros [= <-]. split; [discriminate|]. split; [assumption|].
  eapply Forall_impl; [exact Hfree|]. simpl. intros x Hx. split; [assumption|].
  by apply replace_dot_lacks.
Qed.

Lemma get_modified_packages_names_witness :
  ["system"; "network"] <> [] /\ NoDup ["system"; "network"] /\
  Forall (fun package => lacks "."%char package /\ Py.replace_dot package = package)
         ["system"; "network"].
Proof.
  apply (get_modified_packages_names
           ("uci set system.@system[0].hostname='alpha'" +:+ newline +:+
            "uci get network.lan.ipaddr" +:+ newline +:+
            "uci commit system")).
  vm_compute. reflexivity.
Defined.

Lemma contains_unfold (n s : string) :
  Py.contains n s
  = String.prefix n s
    || match s with
       | String _ rest => Py.contains n rest
       | EmptyString => false
       end.
Proof. by destruct s. Qed.

Lemma contains_prefix (n s : string) : String.prefix n s = true -> Py.contains n s = true.
Proof. intros H. by rewrite contains_unfold, H. Qed.

Lemma search_uci_command_contains (line package : string) :
  search_uci_command line = Some package -> Py.contains "uci " line = true.
Proof.
  induction line as [|c line IH]; [discriminate|].
  change (search_uci_command (String c line))
    with (match uci_command_at (String c line) with
          | Some package => Some package
          | None => search_uci_command line
          end).
  unfold uci_command_at.
  destruct (Py.startswith "uci " (String c line)) eqn:Hstart.
  - intros _. by apply contains_prefix.
  - intros H. simpl. apply orb_true_iff. right. by apply IH.
Qed.

Lemma first_line_prefix (s l : string) (ls : list string) :
  Py.split_lines s = l :: ls -> exists t, s = l +:+ t.
Proof.
  revert l ls. induction s as [|c s IH]; intros l ls; simpl.
  - intros [= <- <-]. by exists EmptyString.
  - destruct (Ascii.eqb c "010"%char).
    + intros [= <- <-]. by exists (String c s).
    + destruct (Py.split_lines s) as [|l' ls'] eqn:Hs; intros [= <- <-].
      * by destruct (split_lines_nonempty s).
      * destruct (IH l' ls' eq_refl) as (t & ->). by exists t.
Qed.

(** A substring of a line is a substring of the text. *)
Lemma contains_line (n s line : string) :
  line ∈ Py.split_lines s -> Py.contains n line = true -> Py.contains n s = true.
Proof.
  revert line. induction s as [|c s IH]; intros line; simpl Py.split_lines.
  - intros Hin. apply list_elem_of_singleton in Hin as ->. done.
  - destruct (Ascii.eqb c "010"%char).
    + intros Hin Hn. apply elem_of_cons in Hin as [->|Hin].
      * destruct n; [reflexivity | discriminate].
      * simpl. apply orb_true_iff. right. by apply (IH line).
    + destruct (Py.split_lines s) as [|l ls] eqn:Hs.
      { by destruct (split_lines_nonempty s). }
      intros Hin Hn. apply elem_of_cons in Hin as [->|Hin].
      * destruct (first_line_prefix s l ls Hs) as (t & Ht).
        simpl in Hn. apply orb_true_iff in Hn as [Hn|Hn].
        -- simpl. apply orb_true_iff. left. rewrite Ht.
           by apply (prefix_app n (String c l) t).
        -- simpl. apply orb_true_iff. right. apply (IH l); [by left | assumption].
      * simpl. apply orb_true_iff. right. apply (IH line); [by right | assumption].
Qed.

(** A script in which [uci] followed by a space does not occur makes
    [get_modified_packages] raise [ValueError]. *)
Theorem get_modified_packages_without_uci (script : string) :
  Py.contains "uci " script = false ->
  get_modified_packages script = Py.Raise Py.ValueError.
Proof.
  intros Hnone. unfold get_modified_packages.
  assert (forall lines,
            (forall l, l ∈ lines -> search_uci_command l = None) ->
            foldl (fun packages line =>
                     match search_uci_command line with
                     | Some package => set_add package packages
                     | None => packages
                     end) [] lines = []) as Hfold.
  { induction lines as [|l lines IH]; intros Hlines; simpl; [reflexivity|].
    rewrite (Hlines l) by (by left). apply IH. intros l' Hl'. apply Hlines. by right. }
  rewrite Hfold; [reflexivity|].
  intros l Hl. destruct (search_uci_command l) as [package|] eqn:Hsearch; [|reflexivity].
  apply search_uci_command_contains in Hsearch.
  rewrite (contains_line _ _ _ Hl Hsearch) in Hnone. discriminate.
Qed.

Lemma get_modified_packages_without_uci_witness :
  get_modified_packages ("/etc/init.d/network restart" +:+ newline +:+ "echo done")
  = Py.Raise Py.ValueError.
Proof.
  apply get_modified_packages_without_uci. vm_compute. reflexivity.
Defined.

Lemma span_solid (name t : string) :
  solid name ->
  (UCISplitter.span_nonspace (name +:+ String "."%char t)).1
  = name +:+ String "."%char (UCISplitter.span_nonspace t).1.
Proof.
  unfold solid. induction name as [|c name IH]; intros H.
  - change (EmptyString +:+ ?x) with x. simpl. by destruct (UCISplitter.span_nonspace t).
  - apply Forall_cons in H as [Hc H]. rewrite !append_cons. simpl. rewrite Hc.
    specialize (IH H). destruct (UCISplitter.span_nonspace (name +:+ String "."%char t)).
    simpl in *. by rewrite IH.
Qed.

Lemma uci_command_at_command (verb name rest : string) :
  verb ∈ uci_verbs -> name <> EmptyString -> solid name -> lacks "."%char name ->
  uci_command_at ("uci " +:+ verb +:+ " " +:+ name +:+ String "."%char rest) = Some name.
Proof.
  intros Hverb Hname Hsolid Hfree.
  destruct name as [|c name]; [contradiction|].
  pose proof (span_solid (String c name) rest Hsolid) as Hrun.
  set (t := String c name +:+ String "."%char rest) in *.
  assert (Py.startswith "uci " ("uci " +:+ verb +:+ " " +:+ t) = true
          /\ List.find (fun v => Py.startswith (v +:+ " ")
                                  (UCISplitter.drop_str 4 ("uci " +:+ verb +:+ " " +:+ t)))
                       ["add"; "set"; "delete"; "get"] = Some verb
          /\ UCISplitter.drop_str (S (String.length verb))
               (UCISplitter.drop_str 4 ("uci " +:+ verb +:+ " " +:+ t)) = t)
    as (Huci & Hfind & Hdrop).
  { unfold uci_verbs in Hverb.
    repeat (apply elem_of_cons in Hverb as [->|Hverb]); [..|by apply elem_of_nil in Hverb];
      by repeat split. }
  unfold uci_command_at. rewrite Huci, Hfind, Hdrop.
  rewrite Hrun. unfold dot_after_first. rewrite append_cons, contains_char_here.
  rewrite <- append_cons. by rewrite before_char_cut.
Qed.

Lemma search_uci_command_here (s package : string) :
  uci_command_at s = Some package -> search_uci_command s = Some package.
Proof. intros H. destruct s; cbn [search_uci_command]; by rewrite H. Qed.

Lemma solid_one_line (s : string) : solid s -> one_line s.
Proof.
  unfold solid, one_line. intros H. eapply Forall_impl; [exact H|].
  intros c Hc ->. discriminate Hc.
Qed.

Lemma one_line_app (a b : string) : one_line a -> one_line b -> one_line (a +:+ b).
Proof.
  unfold one_line. rewrite list_ascii_app. intros Ha Hb. by apply Forall_app.
Qed.

(** A one-line script [uci <verb> <name>.<rest>], with any of the four
    verbs and a name without blank and without dot, reports the package
    [name]: a script that only reads an option with [uci get] has its
    package resynchronised as well. *)
Theorem get_modified_packages_command (verb name rest : string) :
  verb ∈ uci_verbs -> name <> EmptyString -> solid name -> lacks "."%char name ->
  one_line rest ->
  get_modified_packages ("uci " +:+ verb +:+ " " +:+ name +:+ String "."%char rest)
  = Py.Ok [name].
Proof.
  intros Hverb Hname Hsolid Hfree Hrest.
  unfold get_modified_packages. rewrite split_lines_one_line.
  - cbn [foldl].
    assert (search_uci_command ("uci " +:+ verb +:+ " " +:+ name +:+ String "."%char rest)
            = Some name) as ->.
    { apply search_uci_command_here. by apply uci_command_at_command. }
    reflexivity.
  - apply one_line_app; [repeat constructor; discriminate|].
    apply one_line_app.
    { unfold uci_verbs in Hverb.
      repeat (apply elem_of_cons in Hverb as [->|Hverb]); [..|by apply elem_of_nil in Hverb];
        repeat constructor; discriminate. }
    apply one_line_app; [repeat constructor; discriminate|].
    apply one_line_app; [by apply solid_one_line|].
    constructor; [discriminate | exact Hrest].
Qed.

Lemma get_modified_packages_command_witness :
  get_modified_packages ("uci " +:+ "get" +:+ " " +:+ "wireless" +:+ String "."%char "radio0.channel")
  = Py.Ok ["wireless"].
Proof.
  apply get_modified_packages_command.
  - unfold uci_verbs. set_solver.
  - discriminate.
  - repeat constructor.
  - repeat constructor; discriminate.
  - repeat constructor; discriminate.
Defined.

(** ** The script that runs and the script that is scanned *)

Lemma foldl_packages_skip (acc : list string) (line : string) :
  search_uci_command line = None ->
  foldl (fun packages line =>
           match search_uci_command line with
           | Some package => set_add package packages
           | None => packages
           end) acc [line] = acc.
Proof. intros H. cbn [foldl]. by rewrite H. Qed.

(** [generate_script] runs the validated script on the router and scans
    the script as it was extracted for the packages to synchronise: the
    two scans agree, the lines that validation adds name no package. *)
Theorem validated_script_same_packages (script result : string) :
  validate_uci_script script = (true, result) ->
  get_modified_packages result = get_modified_packages script.
Proof.
  intros H.
  destruct (validate_accepted_shape _ _ H) as (_ & _ & pre & post & -> & Hpre & Hpost).
  unfold get_modified_packages.
  set (step := fun (packages : list string) (line : string) =>
                 match search_uci_command line with
                 | Some package => set_add package packages
                 | None => packages
                 end).
  assert (foldl step [] (Py.split_lines (script +:+ post))
          = foldl step [] (Py.split_lines script)) as Hpost'.
  { destruct Hpost as [->| ->]; [by rewrite append_empty_r|].
    rewrite split_lines_app, foldl_app.
    change (Py.split_lines trap_line) with [trap_line].
    apply foldl_packages_skip. vm_compute. reflexivity. }
  assert (foldl step [] (Py.split_lines (pre +:+ script +:+ post))
          = foldl step [] (Py.split_lines script)) as ->.
  { destruct Hpre as [->| ->]; [exact Hpost'|].
    rewrite append_assoc, split_lines_app, foldl_app.
    change (Py.split_lines "#!/bin/sh") with ["#!/bin/sh"].
    replace (foldl step [] ["#!/bin/sh"]) with (@nil string); [exact Hpost'|].
    symmetry. apply foldl_packages_skip. vm_compute. reflexivity. }
  reflexivity.
Qed.

Lemma validated_script_same_packages_witness :
  get_modified_packages
    ("#!/bin/sh" +:+ newline +:+ "uci set system.@system[0].hostname='alpha'"
     +:+ newline +:+ trap_line)
  = get_modified_packages "uci set system.@system[0].hostname='alpha'".
Proof.
  apply (validated_script_same_packages "uci set system.@system[0].hostname='alpha'").
  vm_compute. reflexivity.
Defined.

End ScriptFacts.

(* ===================================================================== *)
(** * Properties of the synchronisation *)
(* ===================================================================== *)

Module SyncFacts.
Import Config ConfigSpec SyncSpec ConfigFacts.

Lemma bind_Ok {S A B} (m : Py.M S A) (k : A -> Py.M S B) (s s' : S) (b : B) :
  Py.bind m k s = (Py.Ok b, s') ->
  exists a s1, m s = (Py.Ok a, s1) /\ k a s1 = (Py.Ok b, s').
Proof.
  unfold Py.bind. destruct (m s) as [[a|e] s1]; [|discriminate].
  intros H. by exists a, s1.
Qed.

(** ** What a successful synchronisation leaves on disk *)

Lemma writes_durable (w w1 w2 : world) :
  write_index w = (Py.Ok tt, w1) -> save_mappings w1 = (Py.Ok tt, w2) -> durable w2.
Proof.
  unfold write_index, save_mappings, disk_write, Py.bind, collect_print, Py.get.
  destruct (disk_faults w) eqn:Hfaults; [|discriminate]. intros [= <-]. simpl.
  rewrite Hfaults. intros [= <-]. by split.
Qed.

Lemma collect_print_durable (m : message) (w w' : world) :
  collect_print m w = (Py.Ok tt, w') -> durable w -> durable w'.
Proof. intros [= <-]. by intros [? ?]. Qed.

(** When [sync_modified_config] returns, the index file holds the index in
    memory and the mapping file the two dictionaries in memory. *)
Theorem sync_modified_config_durable (r : router) (packages chunks : list string)
    (w w' : world) :
  sync_modified_config r packages w = (Py.Ok chunks, w') -> durable w'.
Proof.
  unfold sync_modified_config. intros H.
  apply bind_Ok in H as (w0 & w1 & _ & H).
  apply bind_Ok in H as ([] & w2 & _ & H).
  apply bind_Ok in H as ([] & w3 & _ & H).
  apply bind_Ok in H as (updated & w4 & _ & H).
  apply bind_Ok in H as ([] & w5 & _ & H).
  apply bind_Ok in H as ([] & w6 & Hindex & H).
  apply bind_Ok in H as ([] & w7 & Hsave & H).
  apply bind_Ok in H as ([] & w8 & Hprint & H).
  injection H as _ <-.
  eapply collect_print_durable; [exact Hprint|]. by eapply writes_durable.
Qed.

Lemma sync_modified_config_durable_witness : durable after_first_update.
Proof.
  apply (sync_modified_config_durable (router_named "alpha") ["system"]
           ["system_part1.txt"] after_full_sync).
  vm_compute. reflexivity.
Defined.

(** The same for the full synchronisation. *)
Theorem sync_and_split_config_durable (r : router) (w w' : world) :
  sync_and_split_config r w = (Py.Ok tt, w') -> durable w'.
Proof.
  unfold sync_and_split_config. intros H.
  apply bind_Ok in H as ([] & w1 & _ & H).
  apply bind_Ok in H as ([] & w2 & _ & H).
  apply bind_Ok in H as (ts & w3 & _ & H).
  apply bind_Ok in H as (w4 & w5 & _ & H).
  apply bind_Ok in H as ([] & w6 & _ & H).
  apply bind_Ok in H as ([] & w7 & Hindex & H).
  apply bind_Ok in H as ([] & w8 & Hsave & Hprint).
  eapply collect_print_durable; [exact Hprint|]. by eapply writes_durable.
Qed.

Lemma sync_and_split_config_durable_witness : durable after_full_sync.
Proof.
  apply (sync_and_split_config_durable (router_named "OpenWrt") initial_world).
  vm_compute. reflexivity.
Defined.

(** And for the incremental update of a request: when it goes through,
    the knowledge unit it has added is on disk with the rest. *)
Theorem incremental_update_durable (r : router) (command script relevant_configs : string)
    (packages : list string) (w w' : world) :
  incremental_update r command script relevant_configs packages w = (Py.Ok tt, w') ->
  durable w' /\
  exists vector_id,
    file_path_to_vector_id w' !! knowledge_path (knowledge_name command) = Some vector_id /\
    vector_id_to_file_path w' !! vector_id = Some (knowledge_path (knowledge_name command)).
Proof.
  unfold incremental_update. destruct packages as [|p ps]; [discriminate|].
  intros H. apply bind_Ok in H as (chunks & w1 & _ & H).
  unfold add_knowledge in H.
  apply bind_Ok in H as ([] & w2 & _ & H).
  apply bind_Ok in H as (content & w3 & _ & H).
  apply bind_Ok in H as ([] & w4 & Hreg & H).
  apply bind_Ok in H as ([] & w5 & Hindex & H).
  apply bind_Ok in H as ([] & w6 & Hsave & Hprint).
  split.
  { eapply collect_print_durable; [exact Hprint|]. by eapply writes_durable. }
  exists (Faiss.ntotal (vector_db w3)).
  injection Hprint as <-. injection Hreg as <-.
  unfold write_index, disk_write in Hindex.
  destruct (disk_faults _) eqn:Hfaults in Hindex; [|discriminate]. injection Hindex as <-.
  unfold save_mappings, disk_write, Py.bind, collect_print, Py.get in Hsave.
  simpl in Hsave. simpl in Hfaults. rewrite Hfaults in Hsave. injection Hsave as <-.
  simpl. by rewrite !lookup_insert_eq.
Qed.

Lemma incremental_update_durable_witness :
  durable after_knowledge /\
  exists vector_id,
    file_path_to_vector_id after_knowledge !! knowledge_alpha = Some vector_id /\
    vector_id_to_file_path after_knowledge !! vector_id = Some knowledge_alpha.
Proof.
  apply (incremental_update_durable (router_named "alpha") "rename the router to alpha"
           (rename_script "alpha") EmptyString ["system"] after_full_sync).
  vm_compute. reflexivity.
Defined.

(** ** Restart *)

(** A process that starts on the files of a durable state has, after
    [initialize_vector_db], the index and the two dictionaries of that
    state, whatever it held before. *)
Theorem restart_restores_state (w w0 : world) :
  durable w -> same_files w0 w ->
  exists w1, initialize_vector_db w0 = (Py.Ok tt, w1) /\ same_memory w1 w.
Proof.
  intros [Hindex Hmappings] [Hi Hm].
  unfold initialize_vector_db, Py.bind, Py.get. rewrite Hi, Hindex. simpl.
  unfold load_mappings, Py.bind, Py.get. simpl. rewrite Hm, Hmappings.
  rewrite parse_mappings_document. simpl.
  eexists. split; [reflexivity|]. by repeat split.
Qed.

Lemma restart_restores_state_witness :
  exists w1, initialize_vector_db (restarted after_first_update) = (Py.Ok tt, w1) /\
             same_memory w1 after_first_update.
Proof.
  apply (restart_restores_state after_first_update (restarted after_first_update)).
  - split; vm_compute; reflexivity.
  - split; vm_compute; reflexivity.
Defined.

(** ** [load_mappings] on a damaged file *)

(** A mapping file that is an object without the key [id_to_file] leaves
    both dictionaries empty, also when its [file_to_id] could be read:
    nothing is loaded by halves, and nothing is raised. *)
Theorem load_mappings_without_id_table (w : world) (items : list (string * Json.value)) :
  mappings_file w = Some (Json.Obj items) ->
  Forall (fun kv => kv.1 <> "id_to_file") items ->
  exists w',
    load_mappings w = (Py.Ok tt, w') /\
    file_path_to_vector_id w' = ∅ /\ vector_id_to_file_path w' = ∅ /\
    vector_db w' = vector_db w /\ same_disk w w'.
Proof.
  intros Hfile Hkeys.
  assert (Json.getitem "id_to_file" (Json.Obj items) = Py.Raise Py.KeyError) as Hget.
  { unfold Json.getitem.
    destruct (list_find (fun kv => kv.1 = "id_to_file") items) as [[i kv]|] eqn:Hfind;
      [|reflexivity].
    apply list_find_Some in Hfind as (Hi & Hkv & _).
    apply list_elem_of_lookup_2 in Hi.
    rewrite Forall_forall in Hkeys. by apply Hkeys in Hi. }
  assert (exists e, parse_mappings (Json.Obj items) = Py.Raise e) as [e Hparse].
  { unfold parse_mappings. rewrite Hget.
    destruct (Json.getitem "file_to_id" (Json.Obj items)) as [d1|e]; [|by exists e].
    destruct (Json.items d1) as [l1|e]; [|by exists e].
    destruct (convert_items file_to_id_item l1) as [f2i|e]; [|by exists e].
    by exists Py.KeyError. }
  unfold load_mappings, Py.bind, Py.get. rewrite Hfile, Hparse. simpl.
  eexists. split; [reflexivity|]. by repeat split.
Qed.

Lemma load_mappings_without_id_table_witness :
  exists w',
    load_mappings (set_mappings_file (Some half_document) sample_world) = (Py.Ok tt, w') /\
    file_path_to_vector_id w' = ∅ /\ vector_id_to_file_path w' = ∅ /\
    vector_db w' = vector_db (set_mappings_file (Some half_document) sample_world) /\
    same_disk (set_mappings_file (Some half_document) sample_world) w'.
Proof.
  apply (load_mappings_without_id_table
           (set_mappings_file (Some half_document) sample_world)
           [("file_to_id", Json.Obj [("uci_configs/network_part1.txt", Json.Int 0)])]).
  - reflexivity.
  - repeat constructor. discriminate.
Defined.

(** ** What the full synchronisation registers *)

Lemma register_retrievable (name content : string) (w : world) :
  ids_below_ntotal w ->
  lookup_path (config_path name) w = Some content ->
  let w1 := (register (config_path name) content w).2 in
  ids_below_ntotal w1 /\
  retrievable w1 name /\
  (forall other, retrievable w other -> retrievable w1 other).
Proof.
  intros Hbelow Hread. simpl. split; [|split].
  - intros v p. simpl. destruct (decide (v = Faiss.ntotal (vector_db w))) as [->|Hv].
    + intros _. lia.
    + rewrite lookup_insert_ne by done. intros Hp. apply Hbelow in Hp. lia.
  - exists (Faiss.ntotal (vector_db w)), content. simpl.
    rewrite !lookup_insert_eq. repeat split; [|exact Hread].
    apply elem_of_app. right. by apply list_elem_of_singleton.
  - intros other Hother.
    destruct (decide (other = name)) as [->|Hne].
    + exists (Faiss.ntotal (vector_db w)), content. simpl.
      rewrite !lookup_insert_eq. repeat split; [|exact Hread].
      apply elem_of_app. right. by apply list_elem_of_singleton.
    + destruct Hother as (v & c & Hf & Hi & Hv & Hl).
      exists v, c. simpl. repeat split.
      * rewrite lookup_insert_ne; [exact Hf|].
        intros Heq. apply config_path_inj in Heq. congruence.
      * rewrite lookup_insert_ne; [exact Hi|].
        apply Hbelow in Hi. lia.
      * apply elem_of_app. by left.
      * exact Hl.
Qed.

Lemma add_loop_retrievable (names : list string) :
  forall w w',
    ids_below_ntotal w ->
    Py.for_each add_unless_knowledge names tt w = (Py.Ok tt, w') ->
    uci_configs w' = uci_configs w /\
    (forall name, retrievable w name -> retrievable w' name) /\
    (forall name, name ∈ names -> Py.startswith "knowledge_" name = false ->
                  retrievable w' name).
Proof.
  induction names as [|name names IH]; intros w w' Hbelow Hrun.
  - injection Hrun as <-. split; [reflexivity|]. split; [auto|].
    intros name Hin. by apply elem_of_nil in Hin.
  - simpl in Hrun. apply bind_Ok in Hrun as ([] & w1 & Hstep & Hrun).
    unfold add_unless_knowledge in Hstep.
    destruct (Py.startswith "knowledge_" name) eqn:Hk.
    + injection Hstep as <-.
      destruct (IH w w' Hbelow Hrun) as (Hdir & Hkeep & Hnew).
      split; [exact Hdir|]. split; [exact Hkeep|].
      intros n Hn Hnk. apply elem_of_cons in Hn as [->|Hn]; [congruence|]. by apply Hnew.
    + unfold add_chunk in Hstep. apply bind_Ok in Hstep as (content & w0 & Hread & Hreg).
      unfold read_text in Hread.
      destruct (lookup_path (config_path name) w) as [c|] eqn:Hlook; [|discriminate].
      injection Hread as <- <-.
      destruct (register_retrievable name c w Hbelow Hlook) as (Hbelow1 & Hname & Hold).
      assert (w1 = (register (config_path name) c w).2) as -> by (by rewrite Hreg).
      destruct (IH _ w' Hbelow1 Hrun) as (Hdir & Hkeep & Hnew).
      split; [exact Hdir|]. split; [intros n Hn; by apply Hkeep, Hold|].
      intros n Hn Hnk. apply elem_of_cons in Hn as [->|Hn]; [by apply Hkeep | by apply Hnew].
Qed.

(** After a full synchronisation that returns, every [.txt] file of the
    directory whose name does not start with [knowledge_] can be
    retrieved: the path has an id, the id leads back to the path, and the
    index holds under this id the vector of the content of the file. *)
Theorem full_sync_registers_every_chunk (r : router) (w w' : world) (name : string) :
  sync_and_split_config r w = (Py.Ok tt, w') ->
  name ∈ chunk_files w' -> Py.startswith "knowledge_" name = false ->
  retrievable w' name.
Proof.
  unfold sync_and_split_config. intros H.
  apply bind_Ok in H as ([] & w1 & H1 & H). injection H1 as <-.
  apply bind_Ok in H as ([] & w2 & H2 & H). injection H2 as <-.
  apply bind_Ok in H as (ts & w3 & H3 & H).
  apply bind_Ok in H as (w4 & w5 & H4 & H). injection H4 as <- <-.
  apply bind_Ok in H as ([] & w6 & Hloop & H).
  apply bind_Ok in H as ([] & w7 & Hindex & H).
  apply bind_Ok in H as ([] & w8 & Hsave & Hprint).
  assert (ids_below_ntotal w3) as Hbelow.
  { unfold run_splitter in H3. simpl in H3.
    destruct (UCISplitter.split_config _ _) as [o [sp out]] in H3.
    injection H3 as _ <-. intros v p. simpl. by rewrite lookup_empty. }
  destruct (add_loop_retrievable _ w3 w6 Hbelow Hloop) as (Hdir & _ & Hnew).
  unfold write_index, disk_write in Hindex.
  destruct (disk_faults w6) eqn:Hfaults; [|discriminate]. injection Hindex as <-.
  unfold save_mappings, disk_write, Py.bind, collect_print, Py.get in Hsave.
  simpl in Hsave. rewrite Hfaults in Hsave. injection Hsave as <-.
  injection Hprint as <-.
  unfold chunk_files. simpl. rewrite Hdir. intros Hin Hk.
  destruct (Hnew name Hin Hk) as (v & c & Hf & Hi & Hv & Hl).
  by exists v, c.
Qed.

Lemma full_sync_registers_every_chunk_witness : retrievable after_full_sync "system_part1.txt".
Proof.
  apply (full_sync_registers_every_chunk (router_named "OpenWrt") initial_world).
  - vm_compute. reflexivity.
  - vm_compute. set_solver.
  - vm_compute. reflexivity.
Defined.

End SyncFacts.

(* ===================================================================== *)
(** * More properties of the chunker *)
(* ===================================================================== *)

Module ChunkFacts.
Import UCISplitter SplitterSpec ChunkSpec SplitterFacts.

(** ** The digest of the last chunk *)

(** A buffer whose text is the text of the chunk written last is not
    written again, whatever its package and however the text is cut into
    lines: the flush returns [None] and changes nothing. *)
Theorem flush_same_text_skipped (buf buf' : list string) (pkg pkg' : option string)
    (s s' : store) (tk : task) :
  _flush_buffer buf pkg s = (Py.Ok (Some tk), s') ->
  Py.join_empty buf' = Py.join_empty buf ->
  _flush_buffer buf' pkg' s' = (Py.Ok None, s').
Proof.
  destruct s as [sp out]. unfold _flush_buffer at 1.
  destruct buf as [|l buf]; [discriminate|].
  case_decide; [discriminate|].
  destruct pkg as [p|]; [|discriminate].
  intros [= _ <-] Hsame. unfold _flush_buffer.
  destruct buf' as [|l' buf']; [reflexivity|].
  rewrite Hsame. simpl last_buffer_hash.
  case_decide; [reflexivity | contradiction].
Qed.

Lemma flush_same_text_skipped_witness :
  _flush_buffer [line_package +:+ line_config] (Some "q")
    (_flush_buffer [line_package; line_config] (Some "p") (__init__ 500 20, [])).2
  = (Py.Ok None, (_flush_buffer [line_package; line_config] (Some "p") (__init__ 500 20, [])).2).
Proof.
  eapply (flush_same_text_skipped [line_package; line_config] _ (Some "p") (Some "q")
            (__init__ 500 20, [])).
  - vm_compute. reflexivity.
  - vm_compute. reflexivity.
Defined.

(** ** A package that fits into one chunk *)

Lemma readlines_join (text : string) : Py.join_empty (Py.readlines text) = text.
Proof.
  induction text as [|c rest IH]; [reflexivity|]. simpl.
  destruct (Ascii.eqb c "010"%char).
  - simpl. by rewrite IH.
  - destruct (Py.readlines rest) as [|l ls]; simpl in *; by rewrite <- IH.
Qed.

Lemma length_append (a b : string) :
  String.length (a +:+ b) = (String.length a + String.length b)%nat.
Proof. induction a as [|c a IH]; [reflexivity|]. simpl. by rewrite <- IH. Qed.

Lemma sum_len_join (l : list string) : sum_len l = Py.len (Py.join_empty l).
Proof.
  unfold Py.len. induction l as [|x l IH]; [reflexivity|]. simpl.
  rewrite IH. unfold Py.len. rewrite length_append. lia.
Qed.

Lemma sum_len_app (a b : list string) : sum_len (a ++ b) = sum_len a + sum_len b.
Proof. induction a as [|x a IH]; simpl; [reflexivity|]. rewrite IH. lia. Qed.

Lemma sum_len_nonneg (l : list string) : 0 <= sum_len l.
Proof. rewrite sum_len_join. unfold Py.len. lia. Qed.

Lemma read_write (name content : string) (d : Dir.t) :
  Dir.read name (Dir.write name content d) = Some content.
Proof.
  induction d as [|[n c] d IH]; simpl.
  - by rewrite String.eqb_refl.
  - destruct (String.eqb_spec n name) as [->|Hne]; simpl.
    + by rewrite String.eqb_refl.
    + destruct (String.eqb_spec n name); [contradiction | exact IH].
Qed.

(** The loop on lines that declare no package and fit into the chunk. *)
Lemma loop_without_cut (pkg : string) (rest : list string) :
  forall (st : loop) (s : store),
    current_package st = Some pkg -> tasks st = [] ->
    buffer_size st = sum_len (buffer st) ->
    Forall (fun l => package_pattern l = None) rest ->
    sum_len (buffer st ++ rest) <= max_chunk_size s.1 ->
    exists st',
      Py.for_each split_line rest st s = (Py.Ok st', s) /\
      current_package st' = Some pkg /\ tasks st' = [] /\
      buffer st' = buffer st ++ rest.
Proof.
  induction rest as [|line rest IH]; intros st s Hpkg Hts Hsize Hnone Hfit.
  - exists st. rewrite app_nil_r. by repeat split.
  - apply Forall_cons in Hnone as [Hline Hnone].
    rewrite sum_len_app in Hfit. simpl in Hfit.
    pose proof (sum_len_nonneg rest) as Hrest.
    assert (split_line st line s
            = (Py.Ok (mk_loop (Some pkg) (buffer st ++ [line])
                              (buffer_size st + Py.len line) []), s)) as Hstep.
    { unfold split_line, on_package, Py.bind, Py.ret. rewrite Hline.
      case_decide as Hover; [lia|]. by rewrite Hpkg, Hts. }
    simpl. unfold Py.bind at 1. rewrite Hstep.
    destruct (IH (mk_loop (Some pkg) (buffer st ++ [line])
                          (buffer_size st + Py.len line) []) s)
      as (st' & Hrun & Hpkg' & Hts' & Hbuf'); simpl; try done.
    + rewrite sum_len_app. simpl. lia.
    + rewrite !sum_len_app. simpl. lia.
    + exists st'. rewrite Hrun. repeat split; try done.
      rewrite Hbuf'. simpl. by rewrite <- (assoc_L (++)).
Qed.



(** ** The names of the chunk files *)

Lemma startswith_app (p t : string) : String.prefix p (p +:+ t) = true.
Proof.
  induction p as [|c p IH]; [apply ScriptFacts.prefix_empty|].
  rewrite ScriptFacts.append_cons. simpl. by destruct (ascii_dec c c).
Qed.

Lemma substring_all (b : string) : String.substring 0 (String.length b) b = b.
Proof. induction b as [|c b IH]; [reflexivity|]. simpl. by rewrite IH. Qed.

Lemma substring_suffix (a b : string) :
  String.substring (String.length a) (String.length b) (a +:+ b) = b.
Proof.
  induction a as [|c a IH]; [apply substring_all|].
  rewrite ScriptFacts.append_cons. exact IH.
Qed.

Lemma endswith_app (a suf : string) : Py.endswith suf (a +:+ suf) = true.
Proof.
  unfold Py.endswith. rewrite length_append.
  replace (String.length a + String.length suf - String.length suf)%nat
    with (String.length a) by lia.
  rewrite substring_suffix, String.eqb_refl, andb_true_r.
  apply Nat.leb_le. lia.
Qed.

Lemma matches_chunk_name (safe num : string) :
  Dir.matches (safe +:+ "_part") ".txt" (safe +:+ "_part" +:+ num +:+ ".txt") = true.
Proof.
  unfold Dir.matches, Py.startswith.
  rewrite <- (ScriptFacts.append_assoc safe "_part" (num +:+ ".txt")), startswith_app.
  rewrite <- (ScriptFacts.append_assoc (safe +:+ "_part") num ".txt"), endswith_app.
  rewrite !length_append. simpl. apply Nat.leb_le. lia.
Qed.

Lemma chunks_listed_write (ts : list task) (sp sp' : t) (out : Dir.t) (n c : string) :
  chunks_listed ts (sp, out) -> chunks_listed ts (sp', Dir.write n c out).
Proof.
  unfold chunks_listed. intros H. eapply Forall_impl; [exact H|].
  intros tk Htk Hplain. specialize (Htk Hplain). revert Htk. simpl. unfold Dir.glob.
  rewrite !list_elem_of_filter. intros [Hm Hin]. split; [exact Hm|].
  apply names_write. by right.
Qed.

Lemma flush_listed (buf : list string) (pkg : option string) (ts : list task)
    (s s' : store) (r : option task) :
  chunks_listed ts s ->
  _flush_buffer buf pkg s = (Py.Ok r, s') ->
  chunks_listed (append_task ts r) s'.
Proof.
  destruct s as [sp out]. intros Hts. unfold _flush_buffer.
  destruct buf as [|l buf]; [by intros [= <- <-]|].
  case_decide; [by intros [= <- <-]|].
  destruct pkg as [p|]; [|discriminate].
  intros [= <- <-]. simpl. apply Forall_app. split.
  - by apply (chunks_listed_write ts sp).
  - apply Forall_singleton. intros _. simpl. unfold Dir.glob. apply list_elem_of_filter. split.
    + rewrite matches_chunk_name. exact I.
    + apply names_write. by left.
Qed.

Lemma split_line_listed (st st' : loop) (line : string) (s s' : store) :
  chunks_listed (tasks st) s ->
  split_line st line s = (Py.Ok st', s') ->
  chunks_listed (tasks st') s'.
Proof.
  intros Hts H. unfold split_line in H.
  apply SyncFacts.bind_Ok in H as (st1 & s1 & H1 & H).
  assert (chunks_listed (tasks st1) s1) as Hts1.
  { unfold on_package in H1. destruct (package_pattern line); [|by injection H1 as <- <-].
    apply SyncFacts.bind_Ok in H1 as (stp & sq & H0 & H1). injection H1 as <- <-. simpl.
    destruct (buffer st); [by injection H0 as <- <-|].
    apply SyncFacts.bind_Ok in H0 as (r & s2 & Hflush & H0). injection H0 as <- <-. simpl.
    by eapply flush_listed. }
  apply SyncFacts.bind_Ok in H as (self & s2 & Hself & H). injection Hself as <- <-.
  apply SyncFacts.bind_Ok in H as (st2 & s3 & H2 & H). injection H as <- <-. simpl.
  case_decide; [|by injection H2 as <- <-].
  unfold on_overflow in H2.
  apply SyncFacts.bind_Ok in H2 as (self & s4 & Hself & H2). injection Hself as <- <-.
  case_decide.
  - apply SyncFacts.bind_Ok in H2 as (r & s5 & Hflush & H2). injection H2 as <- <-. simpl.
    by eapply flush_listed.
  - apply SyncFacts.bind_Ok in H2 as (r & s5 & Hflush & H2). injection H2 as <- <-. simpl.
    by eapply flush_listed.
Qed.

(** Every chunk that [split_config] reports for a package with a plain
    name is a file that the pattern [<package with dots replaced>_part*.txt]
    finds in the output directory afterwards: [sync_modified_config], which
    collects the new chunks of a package with this pattern, finds each of
    them. *)
Theorem split_config_chunks_listed (text : string) (s s' : store) (ts : list task) :
  split_config text s = (Py.Ok ts, s') -> chunks_listed ts s'.
Proof.
  unfold split_config. intros H.
  apply SyncFacts.bind_Ok in H as (st & s1 & Hloop & Hfinal).
  assert (forall lines st0 s0,
            chunks_listed (tasks st0) s0 ->
            Py.for_each split_line lines st0 s0 = (Py.Ok st, s1) ->
            chunks_listed (tasks st) s1) as Hinv.
  { induction lines as [|line lines IH]; intros st0 s0 Hts Hrun.
    - by injection Hrun as <- <-.
    - simpl in Hrun. apply SyncFacts.bind_Ok in Hrun as (st2 & s2 & Hstep & Hrun).
      eapply IH; [|exact Hrun]. by eapply split_line_listed. }
  assert (chunks_listed (tasks loop_init) s) as Hinit by apply Forall_nil_2.
  specialize (Hinv _ _ _ Hinit Hloop).
  unfold final_flush in Hfinal.
  destruct (buffer st); [by injection Hfinal as <- <-|].
  apply SyncFacts.bind_Ok in Hfinal as (r & s2 & Hflush & Hfinal). injection Hfinal as <- <-.
  by eapply flush_listed.
Qed.

Lemma split_config_chunks_listed_witness :
  chunks_listed (mk_task "system_part1.txt" system_text "system" 1 :: [])
                (split_config system_text (__init__ 500 20, [])).2.
Proof.
  apply (split_config_chunks_listed system_text (__init__ 500 20, [])).
  vm_compute. reflexivity.
Defined.

(** ** The files the chunker does not touch *)

Lemma read_write_other (name n c : string) (d : Dir.t) :
  n <> name -> Dir.read name (Dir.write n c d) = Dir.read name d.
Proof.
  intros Hne. induction d as [|[m c'] d IH]; simpl.
  - by destruct (String.eqb_spec n name).
  - destruct (String.eqb_spec m n) as [->|Hmn]; simpl.
    + by destruct (String.eqb_spec n name).
    + destruct (String.eqb_spec m name); [reflexivity | exact IH].
Qed.

(** A file whose name does not contain [_part] is after [split_config]
    what it was before, whatever the chunker returns or raises: the export
    [full_config.uci] that it reads is not overwritten. *)
Theorem split_config_leaves_other_files (text name : string) (s : store) :
  Py.contains "_part" name = false ->
  Dir.read name (split_config text s).2.2 = Dir.read name s.2.
Proof.
  intros Hname. revert s.
  apply (ConfigFacts.split_config_lift
           (fun A m => forall s, Dir.read name (m s).2.2 = Dir.read name s.2)).
  - reflexivity.
  - reflexivity.
  - intros A B m k Hm Hk s. unfold Py.bind.
    specialize (Hm s). destruct (m s) as [[a|e] s1]; simpl in Hm; [|exact Hm].
    by rewrite Hk.
  - intros buf pkg [sp out]. unfold _flush_buffer.
    destruct buf; [reflexivity|]. case_decide; [reflexivity|].
    destruct pkg as [p|]; [|reflexivity]. simpl.
    apply read_write_other. intros Heq. rewrite <- Heq in Hname.
    rewrite ScriptFacts.contains_app_r in Hname; [discriminate|].
    apply ScriptFacts.contains_prefix, startswith_app.
Qed.

Lemma split_config_leaves_other_files_witness :
  Dir.read "full_config.uci" (split_config system_text (__init__ 500 20, export_dir)).2.2
  = Dir.read "full_config.uci" export_dir.
Proof.
  apply (split_config_leaves_other_files system_text "full_config.uci"
           (__init__ 500 20, export_dir)).
  vm_compute. reflexivity.
Defined.

End ChunkFacts.
